(** * Salary predictor: a shallow embedding of [app.py] and [train_model.py]

    The development follows the two scripts of the repository.

    - [Py]: the few pieces of the Python runtime the scripts rely on
      (exceptions, 64-bit floats and integers, string splitting, a table
      type standing for a pandas [DataFrame]).
    - [Sklearn]: the fitted preprocessing + regression pipeline, as it is
      configured in [train_model.py].
    - [TrainModel]: the synthetic data set of [train_model.py].
    - [App]: [validate_age], [validate_experience], [load_model] and [main]
      of [app.py], written in a state-and-exception monad whose log records
      what the page shows and which calls reach the model.
    - [Example]: a fitted pipeline, a disk and a few forms on which the
      statements are evaluated.

    Python [float] and numpy [float64] are IEEE binary64 numbers: they are
    modelled by Rocq's primitive floats, which are the same numbers with the
    same round-to-nearest-even operations.  Python [int] is [Z]; numpy
    [int64] is [Z] with its wrap-around written out. *)

From Stdlib Require Import ZArith Floats Lia Bool.
From Stdlib Require Import Strings.String Strings.Ascii.
From stdpp Require Import base option list gmap strings pretty.

Set Warnings "-inexact-float".
Local Open Scope Z_scope.

(* ===================================================================== *)
(** * Part 1. Definitions                                                 *)
(* ===================================================================== *)

Module Py.

(** ** Exceptions *)

Inductive exn : Type :=
| KeyError (key : string)
| IndexError
| ValueError (msg : string)
| TypeError (msg : string)
| FileNotFoundError (path : string).

(** A computation that may raise: [inl e] is a raised exception. *)
Definition result (A : Type) : Type := (exn + A)%type.

Definition ok {A} (a : A) : result A := inr a.
Definition raise {A} (e : exn) : result A := inl e.

Definition rbind {A B} (c : result A) (k : A -> result B) : result B :=
  match c with
  | inl e => inl e
  | inr a => k a
  end.

Fixpoint rmap {A B} (f : A -> result B) (l : list A) : result (list B) :=
  match l with
  | [] => ok []
  | x :: l' =>
      rbind (f x) (fun y => rbind (rmap f l') (fun ys => ok (y :: ys)))
  end.

#[global] Instance result_ret : MRet result := @ok.
#[global] Instance result_bind : MBind result :=
  fun A B k c => rbind c k.

(** ** Numbers *)

(** numpy [int64]: the representative of [z] modulo [2^64] in
    [[-2^63, 2^63)]. *)
Definition wrap64 (z : Z) : Z := (z + 2 ^ 63) mod 2 ^ 64 - 2 ^ 63.

(** Conversion of an integer to binary64, correctly rounded (what
    [float(n)] and numpy's [int64 -> float64] cast do). *)
Definition float_of_int (z : Z) : float :=
  SF2Prim (binary_normalize prec emax z 0 false).

(** The last step of the specification of a rounded operation
    ([binary_round_aux] of the standard library): the mantissa [x],
    already rounded, is brought back into range at exponent [e']. *)
Definition finish (sx : bool) (x e' : Z) : spec_float :=
  let '(mrs'', e'') := shr_fexp prec emax x e' loc_Exact in
  match shr_m mrs'' with
  | Z0 => S754_zero sx
  | Zpos m => if e'' <=? emax - prec then S754_finite sx m e''
              else S754_infinity sx
  | Zneg _ => S754_nan
  end.

(** ** Cells of a table *)

Inductive value : Type :=
| VInt (z : Z)
| VFloat (f : float)
| VStr (s : string).

(** ** Strings *)

(** The whitespace [str.split()] breaks on (its ASCII part: blank, tab,
    line feed, vertical tab, form feed, carriage return and the four
    separators 28-31). *)
Definition is_space (a : ascii) : bool :=
  let n := nat_of_ascii a in
  ((n =? 32) || ((9 <=? n) && (n <=? 13)) || ((28 <=? n) && (n <=? 31)))%nat.

Definition flush (cur : string) (rest : list string) : list string :=
  match cur with
  | EmptyString => rest
  | _ => cur :: rest
  end.

Fixpoint split_from (cur s : string) : list string :=
  match s with
  | EmptyString => flush cur []
  | String a s' =>
      if is_space a then flush cur (split_from EmptyString s')
      else split_from (cur +:+ String a EmptyString) s'
  end.

(** [s.split()]: the maximal runs of non-blank characters. *)
Definition split (s : string) : list string := split_from EmptyString s.

(** [sep.join(l)]. *)
Fixpoint join (sep : string) (l : list string) : string :=
  match l with
  | [] => EmptyString
  | [x] => x
  | x :: l' => x +:+ sep +:+ join sep l'
  end.

(** [l[i]] for a list. *)
Definition index {A} (l : list A) (i : nat) : result A :=
  match l !! i with
  | Some x => ok x
  | None => raise IndexError
  end.

(** [d[k]] for a dict with string keys. *)
Definition getitem {A} (d : gmap string A) (k : string) : result A :=
  match d !! k with
  | Some x => ok x
  | None => raise (KeyError k)
  end.

(** ** Time stamps *)

Record datetime : Type := {
  year : Z; month : Z; day : Z; hour : Z; minute : Z; second : Z
}.

Definition pad2 (n : Z) : string :=
  if n <? 10 then "0" +:+ pretty n else pretty n.

(** [strftime("%Y-%m-%d %H:%M:%S")] (years of four digits). *)
Definition strftime_report (t : datetime) : string :=
  pretty (year t) +:+ "-" +:+ pad2 (month t) +:+ "-" +:+ pad2 (day t)
  +:+ " " +:+ pad2 (hour t) +:+ ":" +:+ pad2 (minute t) +:+ ":"
  +:+ pad2 (second t).

(** [strftime("%Y%m%d_%H%M%S")]. *)
Definition strftime_file (t : datetime) : string :=
  pretty (year t) +:+ pad2 (month t) +:+ pad2 (day t) +:+ "_"
  +:+ pad2 (hour t) +:+ pad2 (minute t) +:+ pad2 (second t).

(** ** Tables

    A pandas [Series] is a typed column: [int64], [float64], or [object]
    (any Python values, here the text columns).  A [DataFrame] with the
    default integer index is its columns in order, all of one length. *)

Inductive Series : Type :=
| Int64 (l : list Z)
| Float64 (l : list float)
| Object (l : list value).

Definition cells (s : Series) : list value :=
  match s with
  | Int64 l => VInt <$> l
  | Float64 l => VFloat <$> l
  | Object l => l
  end.

Definition series_length (s : Series) : nat := length (cells s).

Definition DataFrame : Type := list (string * Series).

Definition nrows (df : DataFrame) : nat :=
  match df with
  | [] => 0%nat
  | c :: _ => series_length c.2
  end.

(** [pd.DataFrame({c1: l1, ...})]: the columns must agree in length. *)
Definition DataFrame_of_columns (cols : list (string * Series))
  : result DataFrame :=
  let n := nrows cols in
  if forallb (fun c => (series_length c.2 =? n)%nat) cols
  then ok cols
  else raise (ValueError "All arrays must be of the same length").

(** A dict (keys in the order they were written) and its lookup. *)
Fixpoint assoc {A} (k : string) (d : list (string * A)) : option A :=
  match d with
  | [] => None
  | (k', v) :: d' => if String.eqb k k' then Some v else assoc k d'
  end.

(** [df[c]]. *)
Definition column (df : DataFrame) (c : string) : result Series :=
  match assoc c df with
  | Some s => ok s
  | None => raise (KeyError c)
  end.

(** Row [i] as a dict from column labels to cells. *)
Definition row (df : DataFrame) (i : nat) : list (string * value) :=
  omap (fun c => (fun v => (c.1, v)) <$> cells c.2 !! i) df.

Definition rows (df : DataFrame) : list (list (string * value)) :=
  row df <$> seq 0 (nrows df).

Definition as_int (v : value) : option Z :=
  match v with VInt z => Some z | _ => None end.

Definition as_float (v : value) : option float :=
  match v with
  | VInt z => Some (float_of_int z)
  | VFloat f => Some f
  | VStr _ => None
  end.

(** The column pandas infers for a list of Python values: [int64] when
    all are integers, [float64] when all are numbers, [object]
    otherwise. *)
Definition series_of_values (vs : list value) : Series :=
  match mapM as_int vs with
  | Some zs => Int64 zs
  | None =>
      match mapM as_float vs with
      | Some fs => Float64 fs
      | None => Object vs
      end
  end.

Definition field (c : string) (d : list (string * value)) : value :=
  default (VFloat nan) (assoc c d).

(** [pd.DataFrame([d1, ...])]: a row per dict, the columns of the first
    dict; a key a dict lacks gives NaN. *)
Definition DataFrame_of_records (recs : list (list (string * value)))
  : DataFrame :=
  let labels := match recs with [] => [] | d :: _ => d.*1 end in
  (fun c => (c, series_of_values (field c <$> recs))) <$> labels.

(** [df.loc[len(df)] = d]: a row is added below the others; a column
    that receives a value of another kind is inferred again (an [int64]
    column that receives a float becomes [float64]). *)
Definition loc_append (df : DataFrame) (d : list (string * value))
  : DataFrame :=
  (fun c => (c.1, series_of_values (cells c.2 ++ [field c.1 d]))) <$> df.

(** *** Arithmetic on columns *)

Definition not_numeric {A} : result A :=
  raise (TypeError "unsupported operand for an object column").

(** [s * k] for a Python integer [k]. *)
Definition series_mul_int (s : Series) (k : Z) : result Series :=
  match s with
  | Int64 l => ok (Int64 ((fun x => wrap64 (x * k)) <$> l))
  | Float64 l => ok (Float64 ((fun x => x * float_of_int k)%float <$> l))
  | Object _ => not_numeric
  end.

(** [k + s] for a Python integer [k]. *)
Definition int_add_series (k : Z) (s : Series) : result Series :=
  match s with
  | Int64 l => ok (Int64 ((fun x => wrap64 (k + x)) <$> l))
  | Float64 l => ok (Float64 ((fun x => float_of_int k + x)%float <$> l))
  | Object _ => not_numeric
  end.

Definition floats (s : Series) : result (list float) :=
  match s with
  | Int64 l => ok (float_of_int <$> l)
  | Float64 l => ok l
  | Object _ => not_numeric
  end.

Definition same_shape {A B} (l1 : list A) (l2 : list B) : bool :=
  (length l1 =? length l2)%nat.

Definition shape_error {A} : result A :=
  raise (ValueError "operands could not be broadcast together").

(** [s1 + s2] for columns (or a column and an array) of one length:
    [int64] with [int64] stays [int64], anything with [float64] is
    [float64].  Operands of different lengths are outside this model
    and reported as an error. *)
Definition series_add (s1 s2 : Series) : result Series :=
  match s1, s2 with
  | Int64 l1, Int64 l2 =>
      if same_shape l1 l2
      then ok (Int64 (zip_with (fun x y => wrap64 (x + y)) l1 l2))
      else shape_error
  | _, _ =>
      l1 ← floats s1;
      l2 ← floats s2;
      if same_shape l1 l2
      then ok (Float64 (zip_with (fun x y => (x + y)%float) l1 l2))
      else shape_error
  end.

Definition map_cell (d : gmap string Z) (v : value) : option Z :=
  match v with
  | VStr k => d !! k
  | _ => None
  end.

(** [s.map(d)] for a dict [d] with integer values: a cell that is not a
    key gives NaN, and the result is then a [float64] column. *)
Definition series_map (s : Series) (d : gmap string Z) : Series :=
  let r := map_cell d <$> cells s in
  match mapM id r with
  | Some zs => Int64 zs
  | None => Float64 ((fun o => from_option float_of_int nan o) <$> r)
  end.

(** ** CSV *)

Definition dquote : ascii := ascii_of_nat 34.

Definition needs_quote (a : ascii) : bool :=
  let n := nat_of_ascii a in
  ((n =? 44) || (n =? 34) || (n =? 10) || (n =? 13))%nat.

Fixpoint any_char (p : ascii -> bool) (s : string) : bool :=
  match s with
  | EmptyString => false
  | String a s' => p a || any_char p s'
  end.

Fixpoint double_quotes (s : string) : string :=
  match s with
  | EmptyString => EmptyString
  | String a s' =>
      if Ascii.eqb a dquote then String a (String a (double_quotes s'))
      else String a (double_quotes s')
  end.

(** A text field, quoted only when it has to be. *)
Definition csv_text (s : string) : string :=
  if any_char needs_quote s
  then String dquote (double_quotes s) +:+ String dquote EmptyString
  else s.

Section to_csv.
(** [repr] of a float, which this development does not compute. *)
Variable float_repr : float -> string.

Definition csv_cell (v : value) : string :=
  match v with
  | VInt z => pretty z
  | VFloat f => float_repr f
  | VStr s => csv_text s
  end.

Definition csv_line (fields : list string) : string :=
  join "," fields +:+ String (ascii_of_nat 10) EmptyString.

(** [df.to_csv(index=False)]: the header, then a line per row. *)
Definition to_csv (df : DataFrame) : string :=
  csv_line (csv_text <$> df.*1)
  +:+ String.concat EmptyString
        ((fun r => csv_line (csv_cell <$> r.*2)) <$> rows df).
End to_csv.

(** *** Column types and column selection *)

Inductive dtype : Type := int64 | float64 | object.

Definition dtype_of (s : Series) : dtype :=
  match s with
  | Int64 _ => int64
  | Float64 _ => float64
  | Object _ => object
  end.

(** [df.dtypes]: the labels with the types of their columns. *)
Definition dtypes (df : DataFrame) : list (string * dtype) :=
  (fun c => (c.1, dtype_of c.2)) <$> df.

(** [df[[c1, ...]]]: the named columns, in the order asked for. *)
Definition select (df : DataFrame) (labels : list string) : result DataFrame :=
  rmap (fun c => rbind (column df c) (fun s => ok (c, s))) labels.

End Py.

(** ** The fitted pipeline

    [train_model.py] builds a scikit-learn [Pipeline]: a [ColumnTransformer]
    with a [StandardScaler] on the numeric columns and a [OneHotEncoder] on
    the categorical ones, then a [LinearRegression].  What is modelled here
    is the state such a pipeline has after [fit] and what [predict] computes
    from it; the numerical work of [fit] itself (means, deviations, least
    squares) is not. *)

Module Sklearn.
Import Py.

(** The [handle_unknown] option of [OneHotEncoder]. *)
Inductive handle_unknown : Type := HU_error | HU_ignore.

#[global] Instance handle_unknown_eq_dec : EqDecision handle_unknown.
Proof. solve_decision. Defined.

Record StandardScaler : Type := {
  mean_ : list float;
  scale_ : list float
}.

Record OneHotEncoder : Type := {
  handle_unknown_ : handle_unknown;
  categories_ : list (list string)
}.

Record LinearRegression : Type := {
  coef_ : list float;
  intercept_ : float
}.

Record Pipeline : Type := {
  numeric_features : list string;
  numeric_transformer : StandardScaler;
  categorical_features : list string;
  categorical_transformer : OneHotEncoder;
  regressor : LinearRegression
}.

(** *** Reading the columns of a row *)

Definition numeric_cell (c : string) (v : option value) : result float :=
  match v with
  | None => raise (KeyError c)
  | Some (VInt z) => ok (float_of_int z)
  | Some (VFloat f) => ok f
  | Some (VStr _) => raise (ValueError "could not convert string to float")
  end.

Definition categorical_cell (c : string) (v : option value) : result string :=
  match v with
  | None => raise (KeyError c)
  | Some (VStr s) => ok s
  | Some _ => raise (TypeError "categorical column is not text")
  end.

(** *** [StandardScaler.transform]: [(x - mean_) / scale_], column-wise *)

Fixpoint standardize (xs means scales : list float) : result (list float) :=
  match xs, means, scales with
  | [], [], [] => ok []
  | x :: xs', m :: means', s :: scales' =>
      r ← standardize xs' means' scales';
      ok (((x - m) / s)%float :: r)
  | _, _, _ => raise (ValueError "X has a different number of features")
  end.

(** *** [OneHotEncoder.transform] *)

Definition indicator (v c : string) : float :=
  if String.eqb c v then 1%float else 0%float.

Definition known (cats : list string) (v : string) : bool :=
  existsb (String.eqb v) cats.

(** One feature: an indicator per known category.  A value outside the
    categories is an error under [HU_error]; under [HU_ignore] its
    indicators are all zero. *)
Definition encode_feature (hu : handle_unknown) (cats : list string)
           (v : string) : result (list float) :=
  if known cats v then ok (indicator v <$> cats)
  else match hu with
       | HU_error => raise (ValueError "Found unknown categories")
       | HU_ignore => ok (replicate (length cats) 0%float)
       end.

Fixpoint encode (hu : handle_unknown) (vs : list string)
         (cats : list (list string)) : result (list float) :=
  match vs, cats with
  | [], [] => ok []
  | v :: vs', c :: cats' =>
      e ← encode_feature hu c v;
      r ← encode hu vs' cats';
      ok (e ++ r)
  | _, _ => raise (ValueError "X has a different number of features")
  end.

(** *** [LinearRegression.predict]: [X @ coef_ + intercept_]

    The products are summed from the left; the order a BLAS sums in is
    not fixed by scikit-learn. *)
Fixpoint dot (acc : float) (xs ws : list float) : result float :=
  match xs, ws with
  | [], [] => ok acc
  | x :: xs', w :: ws' => dot (acc + x * w)%float xs' ws'
  | _, _ => raise (ValueError "shapes not aligned")
  end.

Definition transform_row (p : Pipeline) (r : list (string * value))
  : result (list float) :=
  nums ← rmap (fun c => numeric_cell c (assoc c r)) (numeric_features p);
  cats ← rmap (fun c => categorical_cell c (assoc c r))
            (categorical_features p);
  x1 ← standardize nums (mean_ (numeric_transformer p))
                        (scale_ (numeric_transformer p));
  x2 ← encode (handle_unknown_ (categorical_transformer p)) cats
              (categories_ (categorical_transformer p));
  ok (x1 ++ x2).

Definition predict_row (p : Pipeline) (r : list (string * value))
  : result float :=
  x ← transform_row p r;
  y ← dot 0%float x (coef_ (regressor p));
  ok (y + intercept_ (regressor p))%float.

(** [pipeline.predict(df)]: one number per row. *)
Definition predict (p : Pipeline) (df : DataFrame) : result (list float) :=
  rmap (predict_row p) (rows df).

(** *** An estimator before [fit], and what [fit] leaves behind *)

Record Estimator : Type := {
  est_numeric_features : list string;
  est_categorical_features : list string;
  est_handle_unknown : handle_unknown
}.

Definition width (p : Pipeline) : nat :=
  (length (numeric_features p)
   + sum_list (length <$> categories_ (categorical_transformer p)))%nat.

(** [fitted e p]: [p] is a state [e.fit(X, y)] can leave: the settings of
    [e] are kept, there is a mean and a scale per numeric column, a list
    of categories per categorical column and a coefficient per column of
    the transformed table. *)
Definition fitted (e : Estimator) (p : Pipeline) : bool :=
  bool_decide (numeric_features p = est_numeric_features e)
  && bool_decide (categorical_features p = est_categorical_features e)
  && bool_decide (handle_unknown_ (categorical_transformer p)
                  = est_handle_unknown e)
  && (length (mean_ (numeric_transformer p))
      =? length (numeric_features p))%nat
  && (length (scale_ (numeric_transformer p))
      =? length (numeric_features p))%nat
  && (length (categories_ (categorical_transformer p))
      =? length (categorical_features p))%nat
  && (length (coef_ (regressor p)) =? width p)%nat.

End Sklearn.

(** ** [train_model.py] *)

Module TrainModel.
Import Py Sklearn.

(** *** [numpy.random]

    A call of [randint] or [choice] is described by its equally likely
    outcomes and by how many independent draws it returns; a call of
    [normal] by its two parameters and that number. *)

Record sampler (A : Type) : Type := {
  outcomes : list A;
  size : nat
}.
Arguments outcomes {A} _.
Arguments size {A} _.

(** [np.random.randint(low, high, size)]: the integers [low], ...,
    [high - 1], each as likely as the others. *)
Definition randint (low high : Z) (size : nat) : sampler Z :=
  {| outcomes := seqZ low (high - low); size := size |}.

(** [np.random.choice(a, size)]: an entry of [a], each position as likely
    as the others. *)
Definition choice {A} (a : list A) (size : nat) : sampler A :=
  {| outcomes := a; size := size |}.

Record normal_sampler : Type := {
  loc : float;
  scale : float;
  normal_size : nat
}.

(** [np.random.normal(loc, scale, size)]. *)
Definition normal (loc scale : float) (size : nat) : normal_sampler :=
  {| loc := loc; scale := scale; normal_size := size |}.

(** The chance of an event under a sampler: favourable outcomes over
    all outcomes. *)
Definition favourable {A} (s : sampler A) (ev : A -> bool) : nat :=
  length (filter (fun x => ev x = true) (outcomes s)).

Definition possible {A} (s : sampler A) : nat := length (outcomes s).

(** [s] draws uniformly from the [n] values that satisfy [support], told
    apart by [eqb]: there are [n] outcomes, each such value is exactly
    one of them, and no other value is an outcome.  The chance of each
    value of the support is then one in [n]. *)
Definition uniform {A} (eqb : A -> A -> bool) (s : sampler A)
           (support : A -> Prop) (n : nat) : Prop :=
  possible s = n
  /\ forall x, (support x -> favourable s (eqb x) = 1%nat)
               /\ (~ support x -> favourable s (eqb x) = 0%nat).

(** [xs] is an array the call [s] can return. *)
Definition drawn {A} `{EqDecision A} (s : sampler A) (xs : list A) : bool :=
  (length xs =? size s)%nat
  && forallb (fun x => bool_decide (x ∈ outcomes s)) xs.

(** An array [normal] can return: finite numbers. *)
Definition drawn_normal (s : normal_sampler) (xs : list float) : bool :=
  (length xs =? normal_size s)%nat && forallb is_finite xs.

(** *** The data set, lines 9-15 *)

Definition Gender_values : list string := ["Male"; "Female"].
Definition Education_values : list string :=
  ["High School"; "Bachelor"; "Master"; "PhD"].
Definition Job_values : list string :=
  ["Developer"; "Data Scientist"; "Manager"; "Analyst"; "Engineer"].

Definition Age_call : sampler Z := randint 22 60 300.
Definition Gender_call : sampler string := choice Gender_values 300.
Definition Education_call : sampler string := choice Education_values 300.
Definition Job_call : sampler string := choice Job_values 300.
Definition Experience_call : sampler Z := randint 0 35 300.
Definition noise_call : normal_sampler := normal 0 50000 300.

(** What the six calls returned in one run of the script. *)
Record draws : Type := {
  Age_draw : list Z;
  Gender_draw : list string;
  Education_draw : list string;
  Job_draw : list string;
  Experience_draw : list Z;
  noise_draw : list float
}.

Definition possible_run (w : draws) : bool :=
  drawn Age_call (Age_draw w)
  && drawn Gender_call (Gender_draw w)
  && drawn Education_call (Education_draw w)
  && drawn Job_call (Job_draw w)
  && drawn Experience_call (Experience_draw w)
  && drawn_normal noise_call (noise_draw w).

Definition data (w : draws) : result DataFrame :=
  DataFrame_of_columns
    [ ("Age", Int64 (Age_draw w));
      ("Gender", Object (VStr <$> Gender_draw w));
      ("Education Level", Object (VStr <$> Education_draw w));
      ("Job Title", Object (VStr <$> Job_draw w));
      ("Years of Experience", Int64 (Experience_draw w)) ].

(** *** The salary column, lines 18-37 *)

Definition base_salary : Z := 250000.

Definition education_offsets : gmap string Z :=
  list_to_map [ ("High School", 0); ("Bachelor", 50000);
                ("Master", 100000); ("PhD", 200000) ].

Definition job_offsets : gmap string Z :=
  list_to_map [ ("Developer", 200000); ("Data Scientist", 400000);
                ("Manager", 500000); ("Analyst", 150000);
                ("Engineer", 250000) ].

Definition Salary (w : draws) (data : DataFrame) : result Series :=
  age ← column data "Age";
  age_part ← series_mul_int age 3000;
  t1 ← int_add_series base_salary age_part;
  experience ← column data "Years of Experience";
  experience_part ← series_mul_int experience 15000;
  t2 ← series_add t1 experience_part;
  education ← column data "Education Level";
  t3 ← series_add t2 (series_map education education_offsets);
  job ← column data "Job Title";
  t4 ← series_add t3 (series_map job job_offsets);
  series_add t4 (Float64 (noise_draw w)).

(** The tables and the formula as the specification states them. *)
Definition stated_education_offset (education : string) : Z :=
  if String.eqb education "High School" then 0
  else if String.eqb education "Bachelor" then 50000
  else if String.eqb education "Master" then 100000
  else if String.eqb education "PhD" then 200000
  else 0.

Definition stated_job_offset (job : string) : Z :=
  if String.eqb job "Developer" then 200000
  else if String.eqb job "Data Scientist" then 400000
  else if String.eqb job "Manager" then 500000
  else if String.eqb job "Analyst" then 150000
  else if String.eqb job "Engineer" then 250000
  else 0.

Definition stated_salary (age experience : Z) (education job : string) : Z :=
  250000 + age * 3000 + experience * 15000
  + stated_education_offset education + stated_job_offset job.

(** [data["Salary"] = ...]: the column is added on the right. *)
Definition labelled_data (w : draws) : result DataFrame :=
  d ← data w;
  s ← Salary w d;
  ok (d ++ [("Salary"%string, s)]).

(** *** The estimator, lines 40-56 *)

Definition numeric_features : list string :=
  ["Age"; "Years of Experience"].

Definition categorical_features : list string :=
  ["Gender"; "Education Level"; "Job Title"].

Definition pipeline : Estimator :=
  {| est_numeric_features := numeric_features;
     est_categorical_features := categorical_features;
     est_handle_unknown := HU_ignore |}.

(** What is known of the arrays of a possible run. *)
Record run_facts (w : draws) : Prop := {
  ages_len : length (Age_draw w) = 300%nat;
  genders_len : length (Gender_draw w) = 300%nat;
  educations_len : length (Education_draw w) = 300%nat;
  jobs_len : length (Job_draw w) = 300%nat;
  experiences_len : length (Experience_draw w) = 300%nat;
  noises_len : length (noise_draw w) = 300%nat;
  ages_in : Forall (fun a => 22 <= a < 60) (Age_draw w);
  genders_in : Forall (fun g => g ∈ Gender_values) (Gender_draw w);
  educations_in : Forall (fun e => e ∈ Education_values) (Education_draw w);
  jobs_in : Forall (fun j => j ∈ Job_values) (Job_draw w);
  experiences_in : Forall (fun x => 0 <= x < 35) (Experience_draw w)
}.

(** *** Training and saving, lines 58-65 *)

(** Lines 20-35 of the salary expression: everything but the noise. *)
Definition noise_free_salary (data : DataFrame) : result Series :=
  age ← column data "Age";
  age_part ← series_mul_int age 3000;
  t1 ← int_add_series base_salary age_part;
  experience ← column data "Years of Experience";
  experience_part ← series_mul_int experience 15000;
  t2 ← series_add t1 experience_part;
  education ← column data "Education Level";
  t3 ← series_add t2 (series_map education education_offsets);
  job ← column data "Job Title";
  series_add t3 (series_map job job_offsets).

(** [X] and [y], lines 59-60. *)
Definition X (data : DataFrame) : result DataFrame :=
  select data ["Age"; "Gender"; "Education Level"; "Job Title";
               "Years of Experience"].

Definition y (data : DataFrame) : result Series := column data "Salary".

(** [joblib.dump(p, path)]: the file is written, replacing an older one. *)
Definition joblib_dump (p : Pipeline) (path : string)
           (fs : gmap string Pipeline) : gmap string Pipeline :=
  <[path := p]> fs.

(** The draws [w] with another array of genders. *)
Definition with_gender (w : draws) (genders : list string) : draws :=
  {| Age_draw := Age_draw w; Gender_draw := genders;
     Education_draw := Education_draw w; Job_draw := Job_draw w;
     Experience_draw := Experience_draw w; noise_draw := noise_draw w |}.

Section script.
(** [pipeline.fit(X, y)], whose numerical work is not modelled. *)
Variable fit : Estimator -> DataFrame -> Series -> Pipeline.

(** The script from the draws [w] to the disk it leaves. *)
Definition script (w : draws) (fs : gmap string Pipeline)
  : result (gmap string Pipeline) :=
  data ← labelled_data w;
  x ← X data;
  target ← y data;
  ok (joblib_dump (fit pipeline x target) "salary_prediction_pipeline.pkl" fs).
End script.

End TrainModel.

(** ** [app.py] *)

Module App.
Import Py Sklearn.

(** *** What a run of the script reads, keeps and produces *)

(** The two number formats of the f-strings: [:,.2f] and [:.2f]. *)
Inductive number_format : Type := Grouped2 | Fixed2.

(** [f"{symbol} {x:<format>}"]: the text is determined by these three. *)
Record amount : Type := {
  symbol : string;
  number : float;
  format : number_format
}.

Inductive widget : Type :=
| Header (title : string)
| Subheader (text : string)
| Rule
| ErrorBox (msg : string)
| PredictionCard (caption : string) (a : amount)
| Metric (label : string) (a : amount)
| Heading (text : string)
| Scatter (df : DataFrame) (x y color title : string)
| Pie (df : DataFrame) (names values title : string)
| DownloadButton (label data file_name mime : string)
| SuccessBox (msg : string).

Inductive event : Type :=
| Show (w : widget)
| Sleep (seconds : Z)
| ReadFile (path : string)
| Predict (df : DataFrame) (out : result (list float)).

(** The values the input widgets return in a run. *)
Record form : Type := {
  show_charts : bool;
  currency : string;
  age : Z;
  gender : string;
  education_level : string;
  job_title : string;
  experience : Z;
  predict_button : bool
}.

Definition currency_options : list string :=
  ["₹ (INR)"; "$ (USD)"; "€ (EUR)"].
Definition job_options : list string :=
  ["Developer"; "Data Scientist"; "Manager"; "Analyst"; "Engineer"].

(** Outside the script: the files, the clock, and Python's printing of
    floats. *)
Record world : Type := {
  files : gmap string Pipeline;
  clock : nat -> datetime;
  float_repr : float -> string
}.

(** Inside the process: the resource cache of Streamlit, the number of
    clock readings so far, and what happened, oldest first. *)
Record state : Type := {
  cached_model : option Pipeline;
  ticks : nat;
  log : list event
}.

Definition M (A : Type) : Type := world -> state -> result A * state.

Definition ret {A} (a : A) : M A := fun _ s => (ok a, s).

Definition bind {A B} (c : M A) (k : A -> M B) : M B :=
  fun w s =>
    match c w s with
    | (inl e, s') => (inl e, s')
    | (inr a, s') => k a w s'
    end.

#[global] Instance M_ret : MRet M := @ret.
#[global] Instance M_bind : MBind M := fun A B k c => bind c k.

Definition lift {A} (r : result A) : M A := fun _ s => (r, s).

Definition emit (e : event) : M unit :=
  fun _ s => (ok tt, {| cached_model := cached_model s;
                        ticks := ticks s;
                        log := log s ++ [e] |}).

Definition show (w : widget) : M unit := emit (Show w).

Definition ask : M world := fun w s => (ok w, s).

(** [datetime.now()]. *)
Definition now : M datetime :=
  fun w s => (ok (clock w (ticks s)),
              {| cached_model := cached_model s;
                 ticks := S (ticks s);
                 log := log s |}).

(** [joblib.load(path)]. *)
Definition joblib_load (path : string) : M Pipeline :=
  _ ← emit (ReadFile path);
  w ← ask;
  match files w !! path with
  | Some p => ret p
  | None => lift (raise (FileNotFoundError path))
  end.

(** [@st.cache_resource]: the first value the function returns is kept
    and returned by every later call. *)
Definition cache_resource (f : M Pipeline) : M Pipeline :=
  fun w s =>
    match cached_model s with
    | Some p => (ok p, s)
    | None =>
        match f w s with
        | (inr p, s') => (ok p, {| cached_model := Some p;
                                   ticks := ticks s';
                                   log := log s' |})
        | (inl e, s') => (inl e, s')
        end
    end.

(** [load_model], lines 32-34. *)
Definition load_model : M Pipeline :=
  cache_resource (joblib_load "salary_prediction_pipeline.pkl").

(** [model.predict(df)]: the call is logged with what it returned or
    raised. *)
Definition model_predict (model : Pipeline) (df : DataFrame)
  : M (list float) :=
  _ ← emit (Predict df (predict model df));
  lift (predict model df).

(** *** Validation, lines 38-47 *)

Definition validate_age (age : Z) : bool * string :=
  ((18 <=? age) && (age <=? 60), "Age must be between 18 and 100"%string).

Definition validate_experience (experience age : Z) : bool * string :=
  if experience <? 0 then (false, "Experience cannot be negative"%string)
  else if experience >? age - 16
       then (false, "Experience cannot exceed (Age - 16) years"%string)
       else (true, ""%string).

(** *** The result, lines 102-118 *)

(** The NumPy product of a float with the integer 1 is the product with
    the float 1. *)
Definition currency_multipliers : gmap string float :=
  list_to_map [ ("₹ (INR)", float_of_int 1);
                ("$ (USD)", 0.012%float);
                ("€ (EUR)", 0.011%float) ].

Definition show_result (symbol : string) (converted_salary : float)
  : M unit :=
  _ ← show (PredictionCard "💰 Predicted Annual Salary"
              {| symbol := symbol; number := converted_salary;
                 format := Grouped2 |});
  _ ← show (Metric "Monthly Salary"
              {| symbol := symbol;
                 number := (converted_salary / float_of_int 12)%float;
                 format := Grouped2 |});
  _ ← show (Metric "Hourly Rate"
              {| symbol := symbol;
                 number := (converted_salary / float_of_int (40 * 52))%float;
                 format := Fixed2 |});
  show (Metric "Daily Earning"
          {| symbol := symbol;
             number := (converted_salary / float_of_int 365)%float;
             format := Fixed2 |}).

(** *** The charts, lines 121-162 *)

Definition reference_points : list (string * Series) :=
  [ ("Job Role", Object (VStr <$> job_options));
    ("Actual Salary (INR)", Int64 [800000; 1200000; 1500000; 700000; 900000]);
    ("Years of Experience", Int64 [3; 5; 10; 2; 4]) ].

Definition you (prediction : float) (experience : Z)
  : list (string * value) :=
  [ ("Job Role", VStr "You");
    ("Actual Salary (INR)", VFloat prediction);
    ("Years of Experience", VInt experience) ].

Definition role_counts : list (string * Series) :=
  [ ("Role", Object (VStr <$> job_options));
    ("Count", Int64 [50; 20; 15; 10; 5]) ].

Definition show_visualizations (f : form) (prediction : float) : M unit :=
  _ ← show (Heading "📊 Actual vs. Predicted Salary (Scatter Plot)");
  scatter_data ← lift (DataFrame_of_columns reference_points);
  let scatter_data :=
    loc_append scatter_data (you prediction (experience f)) in
  _ ← show (Scatter scatter_data "Years of Experience"
              "Actual Salary (INR)" "Job Role"
              "Actual vs Predicted Salary (INR)");
  _ ← show (Heading "📊 Job Role Distribution (Pie Chart)");
  role_distribution ← lift (DataFrame_of_columns role_counts);
  show (Pie role_distribution "Role" "Count" "Job Role Distribution").

(** *** The report, lines 165-183 *)

Definition result_data (f : form) (date : string)
           (prediction converted_salary : float) : list (string * value) :=
  [ ("Prediction_Date", VStr date);
    ("Age", VInt (age f));
    ("Gender", VStr (gender f));
    ("Education", VStr (education_level f));
    ("Job_Title", VStr (job_title f));
    ("Experience", VInt (experience f));
    ("Predicted_Salary", VFloat prediction);
    ("Currency", VStr (currency f));
    ("Converted_Salary", VFloat converted_salary) ].

Definition result_df (f : form) (date : string)
           (prediction converted_salary : float) : DataFrame :=
  DataFrame_of_records [result_data f date prediction converted_salary].

Definition offer_report (f : form) (prediction converted_salary : float)
  : M unit :=
  t ← now;
  w ← ask;
  let csv :=
    to_csv (float_repr w)
           (result_df f (strftime_report t) prediction converted_salary) in
  t' ← now;
  show (DownloadButton "📥 Download Prediction Report" csv
          ("salary_prediction_" +:+ strftime_file t' +:+ ".csv")
          "text/csv").

(** *** [main], lines 51-184 *)

(** The one-row table of lines 92-98. *)
Definition input_columns (f : form) : list (string * Series) :=
  [ ("Age", Int64 [age f]);
    ("Gender", Object [VStr (gender f)]);
    ("Education Level", Object [VStr (education_level f)]);
    ("Job Title", Object [VStr (job_title f)]);
    ("Years of Experience", Int64 [experience f]) ].


(** Lines 89-184: the branch taken when both checks passed. *)
Definition predict_and_show (model : Pipeline) (f : form) : M unit :=
  _ ← emit (Sleep 1);
  input_df ← lift (DataFrame_of_columns (input_columns f));
  predictions ← model_predict model input_df;
  prediction ← lift (index predictions 0);
  symbol ← lift (index (split (currency f)) 0);
  multiplier ← lift (getitem currency_multipliers (currency f));
  let converted_salary := (prediction * multiplier)%float in
  _ ← show_result symbol converted_salary;
  _ ← (if show_charts f then show_visualizations f prediction else ret tt);
  _ ← offer_report f prediction converted_salary;
  show (SuccessBox "✅ Prediction completed!").

Definition main (f : form) : M unit :=
  model ← load_model;
  _ ← show (Header "💼Employee Salary Predictor");
  _ ← show (Subheader "Prediction Settings");
  let '(age_valid, age_msg) := validate_age (age f) in
  let '(exp_valid, exp_msg) := validate_experience (experience f) (age f) in
  _ ← (if negb age_valid then show (ErrorBox age_msg) else ret tt);
  _ ← (if negb exp_valid then show (ErrorBox exp_msg) else ret tt);
  _ ← show Rule;
  if predict_button f then
    if negb (age_valid && exp_valid)
    then show (ErrorBox
                 "❌ Please fix the validation errors above before predicting.")
    else predict_and_show model f
  else ret tt.

(** A fresh process: nothing cached, nothing shown. *)
Definition start : state :=
  {| cached_model := None; ticks := 0; log := [] |}.

(** What one run of [main] added to the log. *)
Definition shown (w : world) (s : state) (f : form) : list event :=
  drop (length (log s)) (log (main f w s).2).

(** The model a run works with: the cached one, else the one on disk. *)
Definition available (w : world) (s : state) : option Pipeline :=
  match cached_model s with
  | Some p => Some p
  | None => files w !! "salary_prediction_pipeline.pkl"%string
  end.

(** *** Reading a log *)

Definition predict_calls (l : list event)
  : list (DataFrame * result (list float)) :=
  omap (fun e => match e with Predict df out => Some (df, out) | _ => None end) l.

Definition widgets (l : list event) : list widget :=
  omap (fun e => match e with Show x => Some x | _ => None end) l.

Definition errors (l : list event) : list string :=
  omap (fun x => match x with ErrorBox msg => Some msg | _ => None end)
       (widgets l).

(** The amount on the prediction card. *)
Definition card (l : list event) : option amount :=
  head (omap (fun x => match x with PredictionCard _ a => Some a | _ => None end)
             (widgets l)).

(** The amount of the metric with a given label. *)
Definition metric (label : string) (l : list event) : option amount :=
  head (omap (fun x => match x with
                       | Metric lbl a =>
                           if String.eqb lbl label then Some a else None
                       | _ => None
                       end)
             (widgets l)).

(** The scatter chart: its table and the columns on its two axes. *)
Definition scatter (l : list event) : option (DataFrame * string * string) :=
  head (omap (fun x => match x with
                       | Scatter df x y _ _ => Some (df, x, y)
                       | _ => None
                       end)
             (widgets l)).

Definition has_role (role : string) (r : list (string * value)) : bool :=
  match assoc "Job Role" r with
  | Some (VStr s) => String.eqb s role
  | _ => false
  end.

(** The coordinates of the point whose [Job Role] is [role]. *)
Definition point (role : string) (l : list event) : option (value * value) :=
  '(df, x, y) ← scatter l;
  r ← List.find (has_role role) (rows df);
  vx ← assoc x r;
  vy ← assoc y r;
  Some (vx, vy).

(** The file offered for download: its text and its name. *)
Definition download (l : list event) : option (string * string) :=
  head (omap (fun x => match x with
                       | DownloadButton _ data name _ => Some (data, name)
                       | _ => None
                       end)
             (widgets l)).

(** *** Words for the statements below *)

(** The row of [input_columns], as a dict. *)
Definition the_row (f : form) : list (string * value) :=
  [ ("Age", VInt (age f)); ("Gender", VStr (gender f));
    ("Education Level", VStr (education_level f));
    ("Job Title", VStr (job_title f));
    ("Years of Experience", VInt (experience f)) ].

(** The button was pressed and both checks passed. *)
Definition accepted (f : form) : bool :=
  predict_button f
  && (validate_age (age f)).1
  && (validate_experience (experience f) (age f)).1.

(** The multipliers as the specification lists them: 1 for INR, 0.012
    for USD, 0.011 for EUR. *)
Definition stated_multiplier (currency : string) : option float :=
  if String.eqb currency "₹ (INR)" then Some 1%float
  else if String.eqb currency "$ (USD)" then Some 0.012%float
  else if String.eqb currency "€ (EUR)" then Some 0.011%float
  else None.

(** The nine columns of the report, as the specification lists them. *)
Definition stated_columns : list string :=
  ["Prediction_Date"; "Age"; "Gender"; "Education"; "Job_Title";
   "Experience"; "Predicted_Salary"; "Currency"; "Converted_Salary"].

(** *** The part of the page every run shows *)

Definition loading (s : state) : list event :=
  match cached_model s with
  | Some _ => []
  | None => [ReadFile "salary_prediction_pipeline.pkl"]
  end.

Definition complaints (f : form) : list event :=
  (if (validate_age (age f)).1 then []
   else [Show (ErrorBox (validate_age (age f)).2)])
  ++ (if (validate_experience (experience f) (age f)).1 then []
      else [Show (ErrorBox (validate_experience (experience f) (age f)).2)]).

Definition top (s : state) (f : form) : list event :=
  loading s
  ++ [Show (Header "💼Employee Salary Predictor");
      Show (Subheader "Prediction Settings")]
  ++ complaints f ++ [Show Rule].

(** The events of [show_result], of [show_visualizations] and of
    [offer_report] when [t] clock readings were taken before. *)
Definition result_events (sym : string) (converted_salary : float)
  : list event :=
  [Show (PredictionCard "💰 Predicted Annual Salary"
           {| symbol := sym; number := converted_salary;
              format := Grouped2 |});
   Show (Metric "Monthly Salary"
           {| symbol := sym; number := converted_salary / float_of_int 12;
              format := Grouped2 |});
   Show (Metric "Hourly Rate"
           {| symbol := sym;
              number := converted_salary / float_of_int (40 * 52);
              format := Fixed2 |});
   Show (Metric "Daily Earning"
           {| symbol := sym; number := converted_salary / float_of_int 365;
              format := Fixed2 |})]%float.

Definition chart_events (f : form) (prediction : float) : list event :=
  [Show (Heading "📊 Actual vs. Predicted Salary (Scatter Plot)");
   Show (Scatter (loc_append reference_points
                    (you prediction (experience f)))
           "Years of Experience" "Actual Salary (INR)" "Job Role"
           "Actual vs Predicted Salary (INR)");
   Show (Heading "📊 Job Role Distribution (Pie Chart)");
   Show (Pie role_counts "Role" "Count" "Job Role Distribution")].

Definition report_events (w : world) (t : nat) (f : form)
           (prediction converted_salary : float) : list event :=
  [Show (DownloadButton "📥 Download Prediction Report"
           (to_csv (float_repr w)
              (result_df f (strftime_report (clock w t))
                         prediction converted_salary))
           ("salary_prediction_" +:+ strftime_file (clock w (S t))
            +:+ ".csv")
           "text/csv")].

(** What follows validation when the model returned [p :: ps] and the
    currency has the symbol [sym] and the multiplier [mult]. *)
Definition body (w : world) (t : nat) (f : form) (p : float)
           (ps : list float) (sym : string) (mult : float) : list event :=
  [Sleep 1; Predict (input_columns f) (ok (p :: ps))]
  ++ result_events sym (p * mult)
  ++ (if show_charts f then chart_events f p else [])
  ++ report_events w t f p (p * mult)
  ++ [Show (SuccessBox "✅ Prediction completed!")].

(** The state [s] with [n] more clock readings and the events [es]. *)
Definition logged (s : state) (n : nat) (es : list event) : state :=
  {| cached_model := cached_model s; ticks := n + ticks s;
     log := log s ++ es |}.

(** The state [s] once the model [m] is in the cache, [n] more clock
    readings were taken and the events [es] were logged. *)
Definition after (s : state) (m : Pipeline) (n : nat) (es : list event)
  : state :=
  {| cached_model := Some m; ticks := n + ticks s; log := log s ++ es |}.

(** *** The input widgets, lines 61-72 *)

Definition gender_options : list string := ["Male"; "Female"].
Definition education_options : list string :=
  ["High School"; "Bachelor"; "Master"; "PhD"].

(** What the widgets can return: an option of each select box, an age
    within the bounds of the number input, an experience within those of
    the slider. *)
Definition from_widgets (f : form) : bool :=
  bool_decide (currency f ∈ currency_options)
  && (18 <=? age f) && (age f <=? 100)
  && bool_decide (gender f ∈ gender_options)
  && bool_decide (education_level f ∈ education_options)
  && bool_decide (job_title f ∈ job_options)
  && (0 <=? experience f) && (experience f <=? 50).

(** *** More readings of a log *)

Definition is_read (e : event) : bool :=
  match e with ReadFile _ => true | _ => false end.

Definition is_sleep (e : event) : bool :=
  match e with Sleep _ => true | _ => false end.

(** A computation that leaves the cache as it is and never reads a file. *)
Definition quiet {A} (c : M A) : Prop :=
  forall w s,
    cached_model (c w s).2 = cached_model s
    /\ exists es, log (c w s).2 = log s ++ es
                  /\ existsb is_read es = false.

End App.

(** ** Concrete inputs

    A fitted pipeline with round coefficients, a disk that holds it, and the
    form of the specification's example (age 30, male, bachelor, developer,
    five years), used to evaluate the statements below. *)

Module Example.
Import Py Sklearn App.

Definition model : Pipeline :=
  {| numeric_features := TrainModel.numeric_features;
     numeric_transformer :=
       {| mean_ := [40; 17]%float; scale_ := [10; 10]%float |};
     categorical_features := TrainModel.categorical_features;
     categorical_transformer :=
       {| handle_unknown_ := HU_ignore;
          categories_ :=
            [ ["Female"; "Male"];
              ["Bachelor"; "High School"; "Master"; "PhD"];
              ["Analyst"; "Data Scientist"; "Developer"; "Engineer";
               "Manager"] ] |};
     regressor :=
       {| coef_ := [30000; 150000; 0; 0; 50000; 0; 100000; 200000;
                    150000; 400000; 200000; 250000; 500000]%float;
          intercept_ := 600000%float |} |}.

(** A fitted pipeline whose coefficients and intercept are all zero. *)
Definition flat_model : Pipeline :=
  {| numeric_features := numeric_features model;
     numeric_transformer := numeric_transformer model;
     categorical_features := categorical_features model;
     categorical_transformer := categorical_transformer model;
     regressor := {| coef_ := replicate 13 0%float;
                     intercept_ := 0%float |} |}.

Definition disk (m : Pipeline) : world :=
  {| files := {[ "salary_prediction_pipeline.pkl"%string := m ]};
     clock := fun n => {| year := 2024; month := 3; day := 7; hour := 12;
                          minute := 0; second := Z.of_nat n |};
     float_repr := fun _ => "<float>"%string |}.

Definition empty_disk : world :=
  {| files := ∅; clock := clock (disk model);
     float_repr := float_repr (disk model) |}.

Definition inputs (currency : string) : form :=
  {| show_charts := true; currency := currency; age := 30;
     gender := "Male"; education_level := "Bachelor";
     job_title := "Developer"; experience := 5;
     predict_button := true |}.

(** The same form with an age the number input allows and the check
    refuses. *)
Definition old_inputs : form :=
  {| show_charts := true; currency := "₹ (INR)"; age := 61;
     gender := "Male"; education_level := "Bachelor";
     job_title := "Developer"; experience := 5;
     predict_button := true |}.

(** The example form with a job title no pipeline was fitted on. *)
Definition stranger : form :=
  {| show_charts := false; currency := "₹ (INR)"; age := 30;
     gender := "Male"; education_level := "Bachelor";
     job_title := "Astronaut"; experience := 5;
     predict_button := true |}.

(** The example form before the button is pressed. *)
Definition idle : form :=
  {| show_charts := true; currency := "₹ (INR)"; age := 30;
     gender := "Male"; education_level := "Bachelor";
     job_title := "Developer"; experience := 5;
     predict_button := false |}.

(** A state in which the example pipeline is already cached. *)
Definition warm : state :=
  {| cached_model := Some model; ticks := 4; log := [Show Rule] |}.

(** A fit that answers with the example pipeline, whatever the data. *)
Definition fit (e : Estimator) (x : DataFrame) (t : Series) : Pipeline :=
  model.


(** A run of the trainer in which every draw came out the same. *)
Definition constant_run : TrainModel.draws :=
  {| TrainModel.Age_draw := replicate 300 30;
     TrainModel.Gender_draw := replicate 300 "Male"%string;
     TrainModel.Education_draw := replicate 300 "Bachelor"%string;
     TrainModel.Job_draw := replicate 300 "Developer"%string;
     TrainModel.Experience_draw := replicate 300 5;
     TrainModel.noise_draw := replicate 300 1.5%float |}.

End Example.

(* ===================================================================== *)
(** * Part 2. Theorems                                                    *)
(* ===================================================================== *)

Import Py Sklearn App.

(** ** The definitions on concrete inputs *)

Example validate_age_60 :
  validate_age 60 = (true, "Age must be between 18 and 100"%string).
Proof. reflexivity. Qed.

Example validate_age_61 :
  validate_age 61 = (false, "Age must be between 18 and 100"%string).
Proof. reflexivity. Qed.

Example validate_experience_limit :
  validate_experience 14 30 = (true, ""%string)
  /\ validate_experience 15 30
     = (false, "Experience cannot exceed (Age - 16) years"%string)
  /\ validate_experience (-1) 30
     = (false, "Experience cannot be negative"%string).
Proof. repeat split. Qed.

Example split_currency : split "$ (USD)" = ["$"; "(USD)"]%string.
Proof. reflexivity. Qed.

Example wrap64_overflow : wrap64 (2 ^ 63) = - 2 ^ 63.
Proof. reflexivity. Qed.

Example predict_example :
  predict Example.model (input_columns (Example.inputs "₹ (INR)"))
  = ok [640000%float].
Proof. reflexivity. Qed.

Example predict_raises_under_error :
  encode_feature HU_error ["Analyst"; "Manager"]%string "Astronaut"
  = raise (ValueError "Found unknown categories").
Proof. reflexivity. Qed.

Example main_without_model :
  (main (Example.inputs "₹ (INR)") Example.empty_disk start).1
  = raise (FileNotFoundError "salary_prediction_pipeline.pkl").
Proof. reflexivity. Qed.

Example errors_of_old_inputs :
  errors (shown (Example.disk Example.model) start Example.old_inputs)
  = [ "Age must be between 18 and 100";
      "❌ Please fix the validation errors above before predicting." ]%string.
Proof. reflexivity. Qed.

Example report_text :
  (fun d => d.1) <$>
    download (shown (Example.disk Example.model) start
                (Example.inputs "$ (USD)"))
  = Some
      ("Prediction_Date,Age,Gender,Education,Job_Title,Experience,"
       +:+ "Predicted_Salary,Currency,Converted_Salary"
       +:+ String (ascii_of_nat 10)
             ("2024-03-07 12:00:00,30,Male,Bachelor,Developer,5,<float>,"
              +:+ "$ (USD),<float>" +:+ String (ascii_of_nat 10) "")).
Proof. reflexivity. Qed.

(** ** Validation *)

Lemma validate_age_flag (age : Z) :
  (validate_age age).1 = true <-> 18 <= age <= 60.
Proof. unfold validate_age; simpl. rewrite andb_true_iff. lia. Qed.

Lemma validate_experience_flag (experience age : Z) :
  (validate_experience experience age).1 = true <-> 0 <= experience <= age - 16.
Proof.
  unfold validate_experience.
  destruct (Z.ltb_spec experience 0), (Z.gtb_spec experience (age - 16));
    simpl; split; intros; try discriminate; try lia; reflexivity.
Qed.

(** C1.  In range, both checks answer true; an age outside [18, 60] makes
    [validate_age] answer false, and a negative experience, or one above
    [age - 16], makes [validate_experience] answer false. *)
Theorem validation_ranges (age experience : Z) :
  (18 <= age <= 60 -> 0 <= experience <= age - 16 ->
   (validate_age age).1 = true
   /\ (validate_experience experience age).1 = true)
  /\ (~ 18 <= age <= 60 -> (validate_age age).1 = false)
  /\ (experience < 0 \/ experience > age - 16 ->
      (validate_experience experience age).1 = false).
Proof.
  split; [|split].
  - intros Ha He. split.
    + now apply validate_age_flag.
    + now apply validate_experience_flag.
  - intros Ha. apply not_true_is_false. now rewrite validate_age_flag.
  - intros He. apply not_true_is_false. rewrite validate_experience_flag. lia.
Qed.

(** C2.  [validate_age] accepts exactly the ages 18 to 60, and whatever the
    age its message reads "between 18 and 100": an age above 60 and up to
    100 is rejected with a message that names it as acceptable. *)
Theorem validate_age_bound_and_message (age : Z) :
  ((validate_age age).1 = true <-> 18 <= age <= 60)
  /\ (validate_age age).2 = "Age must be between 18 and 100"%string
  /\ (60 < age <= 100 ->
      validate_age age = (false, "Age must be between 18 and 100"%string)).
Proof.
  split; [apply validate_age_flag|]. split; [reflexivity|].
  intros H. unfold validate_age. f_equal.
  apply andb_false_iff. right. apply Z.leb_gt. lia.
Qed.

(** ** Running [main] *)

Lemma load_model_run (w : world) (s : state) (m : Pipeline) :
  available w s = Some m ->
  load_model w s = (ok m, after s m 0 (loading s)).
Proof.
  unfold available, load_model, cache_resource, loading, after.
  destruct s as [c t l]; simpl. destruct c as [m'|]; intros H.
  - injection H as ->. now rewrite app_nil_r.
  - unfold joblib_load.
    cbv [mbind M_bind bind emit ask lift ret mret M_ret]. simpl. now rewrite H.
Qed.

Lemma main_run (w : world) (s : state) (f : form) (m : Pipeline) :
  available w s = Some m ->
  main f w s =
    if predict_button f then
      if (validate_age (age f)).1 && (validate_experience (experience f) (age f)).1
      then predict_and_show m f w (after s m 0 (top s f))
      else (ok tt,
            after s m 0
              (top s f
               ++ [Show (ErrorBox
                     "❌ Please fix the validation errors above before predicting.")]))
    else (ok tt, after s m 0 (top s f)).
Proof.
  intros Hm. unfold main.
  cbv [mbind M_bind]. unfold bind at 1. rewrite (load_model_run _ _ _ Hm).
  unfold top, complaints.
  destruct (validate_age (age f)) as [age_valid age_msg].
  destruct (validate_experience (experience f) (age f)) as [exp_valid exp_msg].
  cbv [bind show emit ret mret M_ret]. unfold after; simpl.
  destruct age_valid, exp_valid, (predict_button f); simpl;
    rewrite <- ?app_assoc; reflexivity.
Qed.

(** Steps of the monad. *)
Lemma bind_run {A B} (c : M A) (k : A -> M B) (w : world) (s s' : state)
      (a : A) :
  c w s = (ok a, s') -> (c ≫= k) w s = k a w s'.
Proof. intros H. cbv [mbind M_bind bind]. now rewrite H. Qed.

Lemma bind_raise {A B} (c : M A) (k : A -> M B) (w : world) (s s' : state)
      (e : exn) :
  c w s = (raise e, s') -> (c ≫= k) w s = (raise e, s').
Proof. intros H. cbv [mbind M_bind bind]. now rewrite H. Qed.

Lemma logged_logged (s : state) (n n' : nat) (es es' : list event) :
  logged (logged s n es) n' es' = logged s (n' + n) (es ++ es').
Proof. unfold logged; simpl. f_equal; [lia | now rewrite app_assoc]. Qed.

Lemma logged_nil (s : state) : logged s 0 [] = s.
Proof. destruct s. unfold logged; simpl. now rewrite app_nil_r. Qed.

Lemma emit_run (e : event) (w : world) (s : state) :
  emit e w s = (ok tt, logged s 0 [e]).
Proof. reflexivity. Qed.

Lemma show_result_run (sym : string) (c : float) (w : world) (s : state) :
  show_result sym c w s = (ok tt, logged s 0 (result_events sym c)).
Proof.
  unfold show_result, show.
  do 3 (erewrite bind_run by apply emit_run).
  rewrite emit_run, !logged_logged. reflexivity.
Qed.

Lemma show_visualizations_run (f : form) (p : float) (w : world) (s : state) :
  show_visualizations f p w s = (ok tt, logged s 0 (chart_events f p)).
Proof.
  unfold show_visualizations, show.
  erewrite bind_run by apply emit_run.
  erewrite bind_run by reflexivity.
  do 2 (erewrite bind_run by apply emit_run).
  erewrite bind_run by reflexivity.
  rewrite emit_run, !logged_logged. reflexivity.
Qed.

Lemma offer_report_run (f : form) (p c : float) (w : world) (s : state) :
  offer_report f p c w s = (ok tt, logged s 2 (report_events w (ticks s) f p c)).
Proof. reflexivity. Qed.

Lemma charts_run (f : form) (p : float) (w : world) (s : state) :
  (if show_charts f then show_visualizations f p else ret tt) w s
  = (ok tt, logged s 0 (if show_charts f then chart_events f p else [])).
Proof.
  destruct (show_charts f).
  - apply show_visualizations_run.
  - now rewrite logged_nil.
Qed.

Lemma input_df_ok (f : form) :
  DataFrame_of_columns (input_columns f) = ok (input_columns f).
Proof. reflexivity. Qed.

Lemma lift_run {A} (r : result A) (w : world) (s : state) :
  lift r w s = (r, s).
Proof. reflexivity. Qed.

(** The branch after validation, when the model returns [p] for the row. *)
Lemma predict_and_show_run (w : world) (s : state) (f : form) (m : Pipeline)
      (p : float) (ps : list float) (sym : string) (mult : float) :
  predict m (input_columns f) = ok (p :: ps) ->
  index (split (currency f)) 0 = ok sym ->
  getitem currency_multipliers (currency f) = ok mult ->
  predict_and_show m f w s
  = (ok tt, logged s 2 (body w (ticks s) f p ps sym mult)).
Proof.
  intros Hp Hs Hm. unfold predict_and_show, model_predict.
  erewrite bind_run by apply emit_run.
  erewrite bind_run by (rewrite input_df_ok; apply lift_run).
  erewrite bind_run
    by (erewrite bind_run by apply emit_run; rewrite Hp; apply lift_run).
  erewrite bind_run by (apply lift_run).
  erewrite bind_run by (rewrite Hs; apply lift_run).
  erewrite bind_run by (rewrite Hm; apply lift_run).
  erewrite bind_run by apply show_result_run.
  erewrite bind_run by apply charts_run.
  erewrite bind_run by apply offer_report_run.
  unfold show. rewrite emit_run, !logged_logged. reflexivity.
Qed.

(** The same branch when the model raises: the call is logged and the
    exception leaves [main]. *)
Lemma predict_and_show_raise (w : world) (s : state) (f : form) (m : Pipeline)
      (e : exn) :
  predict m (input_columns f) = raise e ->
  predict_and_show m f w s
  = (raise e, logged s 0 [Sleep 1; Predict (input_columns f) (raise e)]).
Proof.
  intros Hp. unfold predict_and_show, model_predict.
  erewrite bind_run by apply emit_run.
  erewrite bind_run by (rewrite input_df_ok; apply lift_run).
  erewrite bind_raise
    by (erewrite bind_run by apply emit_run; rewrite Hp; apply lift_run).
  now rewrite logged_logged.
Qed.

Lemma accepted_inv (f : form) :
  accepted f = true ->
  predict_button f = true
  /\ (validate_age (age f)).1 = true
  /\ (validate_experience (experience f) (age f)).1 = true.
Proof. unfold accepted. rewrite !andb_true_iff. tauto. Qed.

Lemma top_accepted (s : state) (f : form) :
  accepted f = true ->
  top s f = loading s
            ++ [Show (Header "💼Employee Salary Predictor");
                Show (Subheader "Prediction Settings"); Show Rule].
Proof.
  intros (_ & Ha & He)%accepted_inv. unfold top, complaints.
  now rewrite Ha, He.
Qed.

Lemma shown_after (w : world) (s : state) (f : form) (r : result unit)
      (m : Pipeline) (n : nat) (es : list event) :
  main f w s = (r, after s m n es) -> shown w s f = es.
Proof.
  intros H. unfold shown. rewrite H. unfold after; simpl.
  now rewrite drop_app_length.
Qed.

(** A run that passes validation and whose model answers. *)
Lemma accepted_run (w : world) (s : state) (f : form) (m : Pipeline)
      (p : float) (ps : list float) (sym : string) (mult : float) :
  available w s = Some m ->
  accepted f = true ->
  predict m (input_columns f) = ok (p :: ps) ->
  index (split (currency f)) 0 = ok sym ->
  getitem currency_multipliers (currency f) = ok mult ->
  main f w s
  = (ok tt, after s m 2 (top s f ++ body w (ticks s) f p ps sym mult)).
Proof.
  intros Hm Ha Hp Hs Hx.
  destruct (accepted_inv _ Ha) as (Hb & Hva & Hve).
  rewrite (main_run _ _ _ _ Hm), Hb, Hva, Hve. simpl.
  rewrite (predict_and_show_run _ _ _ _ _ _ _ _ Hp Hs Hx).
  unfold after, logged; simpl. now rewrite <- app_assoc.
Qed.

(** A run that passes validation and whose model raises. *)
Lemma accepted_run_raise (w : world) (s : state) (f : form) (m : Pipeline)
      (e : exn) :
  available w s = Some m ->
  accepted f = true ->
  predict m (input_columns f) = raise e ->
  main f w s
  = (raise e,
     after s m 0 (top s f ++ [Sleep 1; Predict (input_columns f) (raise e)])).
Proof.
  intros Hm Ha Hp.
  destruct (accepted_inv _ Ha) as (Hb & Hva & Hve).
  rewrite (main_run _ _ _ _ Hm), Hb, Hva, Hve. simpl.
  rewrite (predict_and_show_raise _ _ _ _ _ Hp).
  unfold after, logged; simpl. now rewrite <- app_assoc.
Qed.

(** A run whose validation fails after the button was pressed. *)
Lemma rejected_run (w : world) (s : state) (f : form) (m : Pipeline) :
  available w s = Some m ->
  predict_button f = true ->
  (validate_age (age f)).1 = false
  \/ (validate_experience (experience f) (age f)).1 = false ->
  main f w s
  = (ok tt,
     after s m 0
       (top s f
        ++ [Show (ErrorBox
              "❌ Please fix the validation errors above before predicting.")])).
Proof.
  intros Hm Hb Hv. rewrite (main_run _ _ _ _ Hm), Hb.
  destruct Hv as [-> | ->]; [reflexivity|].
  now rewrite andb_false_r.
Qed.

(** What the select box of the currency can return, and what the script
    derives from it. *)
Lemma currency_cases (c : string) :
  c ∈ currency_options ->
  exists sym mult,
    index (split c) 0 = ok sym
    /\ getitem currency_multipliers c = ok mult
    /\ stated_multiplier c = Some mult
    /\ (c = "₹ (INR)"%string /\ sym = "₹"%string /\ mult = 1%float
        \/ c = "$ (USD)"%string /\ sym = "$"%string /\ mult = 0.012%float
        \/ c = "€ (EUR)"%string /\ sym = "€"%string /\ mult = 0.011%float).
Proof.
  unfold currency_options. rewrite !elem_of_cons, elem_of_nil.
  intros [-> | [-> | [-> | []]]]; do 2 eexists;
    (split; [vm_compute; reflexivity|]); (split; [vm_compute; reflexivity|]);
    (split; [vm_compute; reflexivity|]); tauto.
Qed.

(** ** The pipeline *)

Lemma standardize_ok (xs means scales : list float) :
  length means = length xs -> length scales = length xs ->
  exists r, standardize xs means scales = ok r /\ length r = length xs.
Proof.
  revert means scales.
  induction xs as [|x xs IH]; intros [|m means] [|sc scales];
    simpl; try discriminate; intros Hm Hs.
  - now exists [].
  - destruct (IH means scales) as (r & -> & Hr); [lia | lia |].
    eexists. split; [reflexivity|]. simpl. now rewrite Hr.
Qed.

Lemma encode_feature_ignore (cats : list string) (v : string) :
  exists e, encode_feature HU_ignore cats v = ok e /\ length e = length cats.
Proof.
  unfold encode_feature. destruct (known cats v); eexists; split;
    try reflexivity.
  - now rewrite length_fmap.
  - now rewrite length_replicate.
Qed.

Lemma encode_feature_unknown (cats : list string) (v : string) :
  known cats v = false ->
  encode_feature HU_ignore cats v = ok (replicate (length cats) 0%float).
Proof. unfold encode_feature. now intros ->. Qed.

Lemma encode_ignore_ok (vs : list string) (cats : list (list string)) :
  length cats = length vs ->
  exists r, encode HU_ignore vs cats = ok r
            /\ length r = sum_list (length <$> cats).
Proof.
  revert cats.
  induction vs as [|v vs IH]; intros [|c cats]; simpl; try discriminate;
    intros Hl.
  - now exists [].
  - destruct (encode_feature_ignore c v) as (e & -> & He).
    destruct (IH cats) as (r & -> & Hr); [lia|].
    eexists. split; [reflexivity|]. now rewrite length_app, He, Hr.
Qed.

Lemma dot_ok (acc : float) (xs ws : list float) :
  length xs = length ws -> exists y, dot acc xs ws = ok y.
Proof.
  revert acc ws.
  induction xs as [|x xs IH]; intros acc [|w ws]; simpl; try discriminate;
    intros Hl.
  - now eexists.
  - apply IH. lia.
Qed.

(** The properties [fitted] packs, one by one. *)
Lemma fitted_inv (e : Estimator) (m : Pipeline) :
  fitted e m = true ->
  numeric_features m = est_numeric_features e
  /\ categorical_features m = est_categorical_features e
  /\ handle_unknown_ (categorical_transformer m) = est_handle_unknown e
  /\ length (mean_ (numeric_transformer m)) = length (numeric_features m)
  /\ length (scale_ (numeric_transformer m)) = length (numeric_features m)
  /\ length (categories_ (categorical_transformer m))
     = length (categorical_features m)
  /\ length (coef_ (regressor m)) = width m.
Proof.
  unfold fitted. rewrite !andb_true_iff, !bool_decide_eq_true, !Nat.eqb_eq.
  tauto.
Qed.

Lemma rows_input (f : form) : rows (input_columns f) = [the_row f].
Proof. reflexivity. Qed.

Lemma predict_input (m : Pipeline) (f : form) :
  predict m (input_columns f)
  = rbind (predict_row m (the_row f)) (fun y => ok [y]).
Proof.
  unfold predict. rewrite rows_input. simpl.
  now destruct (predict_row m (the_row f)).
Qed.

(** The transformed row of a pipeline fitted by [train_model.py]: the two
    scaled numbers, then the indicators. *)
Lemma transform_fitted (m : Pipeline) (f : form) :
  fitted TrainModel.pipeline m = true ->
  exists x1 x2,
    standardize [float_of_int (age f); float_of_int (experience f)]
                (mean_ (numeric_transformer m))
                (scale_ (numeric_transformer m)) = ok x1
    /\ encode HU_ignore [gender f; education_level f; job_title f]
              (categories_ (categorical_transformer m)) = ok x2
    /\ transform_row m (the_row f) = ok (x1 ++ x2)
    /\ length x1 = 2%nat
    /\ length (x1 ++ x2) = width m.
Proof.
  intros Hf. apply fitted_inv in Hf as (Hn & Hc & Hu & Hm & Hs & Hk & _).
  simpl in Hn, Hc, Hu.
  unfold transform_row, width. rewrite Hn, Hc, Hu in *. simpl in Hm, Hs, Hk.
  destruct (standardize_ok [float_of_int (age f); float_of_int (experience f)]
              _ _ Hm Hs) as (x1 & H1 & L1).
  destruct (encode_ignore_ok [gender f; education_level f; job_title f]
              _ Hk) as (x2 & H2 & L2).
  exists x1, x2. split; [exact H1|]. split; [exact H2|]. split; [|split].
  - cbn -[standardize encode float_of_int]. rewrite H1. cbn -[encode].
    rewrite H2. reflexivity.
  - exact L1.
  - rewrite length_app, L1, L2. reflexivity.
Qed.

Lemma predict_fitted (m : Pipeline) (f : form) :
  fitted TrainModel.pipeline m = true ->
  exists y, predict m (input_columns f) = ok [y].
Proof.
  intros Hf. destruct (transform_fitted m f Hf) as (x1 & x2 & _ & _ & Ht & _ & Hl).
  apply fitted_inv in Hf as (_ & _ & _ & _ & _ & _ & Hw).
  destruct (dot_ok 0%float (x1 ++ x2) (coef_ (regressor m))) as (y & Hy);
    [congruence|].
  rewrite predict_input. unfold predict_row. rewrite Ht. cbn. rewrite Hy.
  cbn. eauto.
Qed.

(** C9.  A pipeline fitted by [train_model.py] returns one number for the
    row of any form, whatever its text values; a value outside the fitted
    categories is encoded by zeros, and when the job title is such a value
    the transformed row ends with a zero per known job title. *)
Theorem unknown_category_is_ignored (m : Pipeline) (f : form) :
  fitted TrainModel.pipeline m = true ->
  (exists y, predict m (input_columns f) = ok [y])
  /\ (forall cats v,
        known cats v = false ->
        encode_feature (handle_unknown_ (categorical_transformer m)) cats v
        = ok (replicate (length cats) 0%float))
  /\ (forall c1 c2 c3,
        categories_ (categorical_transformer m) = [c1; c2; c3] ->
        known c3 (job_title f) = false ->
        exists x,
          transform_row m (the_row f) = ok (x ++ replicate (length c3) 0%float)
          /\ length x = (2 + length c1 + length c2)%nat).
Proof.
  intros Hf. split; [now apply predict_fitted|]. split.
  - intros cats v Hk.
    apply fitted_inv in Hf as (_ & _ & -> & _). simpl.
    now apply encode_feature_unknown.
  - intros c1 c2 c3 Hc Hk.
    destruct (transform_fitted m f Hf) as (x1 & x2 & _ & H2 & Ht & L1 & _).
    rewrite Hc in H2. simpl in H2.
    destruct (encode_feature_ignore c1 (gender f)) as (e1 & E1 & L2).
    destruct (encode_feature_ignore c2 (education_level f)) as (e2 & E2 & L3).
    rewrite E1, E2, (encode_feature_unknown _ _ Hk) in H2. simpl in H2.
    injection H2 as <-.
    exists (x1 ++ e1 ++ e2). split.
    + rewrite Ht. f_equal. rewrite app_nil_r, <- !app_assoc. reflexivity.
    + rewrite !length_app, L1, L2, L3. simpl. lia.
Qed.

(** The statement at the example pipeline and a form whose job title is
    "Astronaut". *)
Lemma unknown_category_is_ignored_witness :
  fitted TrainModel.pipeline Example.model = true
  /\ known ["Analyst"; "Data Scientist"; "Developer"; "Engineer"; "Manager"]
           (job_title Example.stranger) = false
  /\ (exists y, predict Example.model (input_columns Example.stranger)
                = ok [y])
  /\ exists x,
       transform_row Example.model (the_row Example.stranger)
       = ok (x ++ replicate 5 0%float)
       /\ length x = 8%nat.
Proof.
  split; [reflexivity|]. split; [reflexivity|].
  destruct (unknown_category_is_ignored Example.model Example.stranger
              eq_refl) as (Hy & _ & Hx).
  split; [exact Hy|].
  exact (Hx _ _ _ eq_refl eq_refl).
Defined.

(** ** The page of a run *)

(** The readings of an accepted page. *)
Lemma accepted_page (s : state) (f : form) (w : world) (t : nat) (p : float)
      (ps : list float) (sym : string) (mult : float) :
  accepted f = true ->
  let l := top s f ++ body w t f p ps sym mult in
  predict_calls l = [(input_columns f, ok (p :: ps))]
  /\ errors l = []
  /\ card l = Some {| symbol := sym; number := p * mult; format := Grouped2 |}
  /\ metric "Monthly Salary" l
     = Some {| symbol := sym; number := p * mult / 12; format := Grouped2 |}
  /\ metric "Hourly Rate" l
     = Some {| symbol := sym; number := p * mult / 2080; format := Fixed2 |}
  /\ metric "Daily Earning" l
     = Some {| symbol := sym; number := p * mult / 365; format := Fixed2 |}
  /\ download l
     = Some (to_csv (float_repr w)
               (result_df f (strftime_report (clock w t)) p (p * mult)),
             "salary_prediction_" +:+ strftime_file (clock w (S t)) +:+ ".csv")
  /\ (show_charts f = true ->
      point "You" l = Some (VInt (experience f), VFloat p))
  /\ (show_charts f = false -> scatter l = None).
Proof.
  intros Ha l. subst l. rewrite (top_accepted _ _ Ha).
  unfold loading, body, result_events, chart_events, report_events.
  destruct (cached_model s), (show_charts f); repeat split;
    try reflexivity; try discriminate.
Qed.

(** The readings of a page that refuses to predict. *)
Lemma rejected_page (s : state) (f : form) (msg : string) :
  let l := top s f ++ [Show (ErrorBox msg)] in
  predict_calls l = []
  /\ card l = None
  /\ download l = None
  /\ scatter l = None
  /\ errors l
     = (if (validate_age (age f)).1 then [] else [(validate_age (age f)).2])
       ++ (if (validate_experience (experience f) (age f)).1 then []
           else [(validate_experience (experience f) (age f)).2])
       ++ [msg].
Proof.
  unfold top, complaints, loading.
  destruct (cached_model s), (validate_age (age f)) as [[] ?],
    (validate_experience (experience f) (age f)) as [[] ?];
    repeat split; reflexivity.
Qed.

(** The pipeline answers a one-row table with one number, or raises. *)
Lemma predict_cases (m : Pipeline) (f : form) :
  (exists y, predict m (input_columns f) = ok [y])
  \/ (exists e, predict m (input_columns f) = raise e).
Proof.
  rewrite predict_input. destruct (predict_row m (the_row f)) as [e|y]; simpl.
  - right. now exists e.
  - left. now exists y.
Qed.

(** An accepted run calls the model once, on the row of the form, and
    leaves the model in the cache. *)
Lemma accepted_calls (w : world) (s : state) (f : form) (m : Pipeline) :
  available w s = Some m ->
  accepted f = true ->
  currency f ∈ currency_options ->
  cached_model (main f w s).2 = Some m
  /\ predict_calls (shown w s f)
     = [(input_columns f, predict m (input_columns f))].
Proof.
  intros Hm Ha Hc.
  destruct (currency_cases _ Hc) as (sym & mult & Hs & Hx & _).
  destruct (predict_cases m f) as [[y Hp] | [e Hp]].
  - pose proof (accepted_run _ _ _ _ _ _ _ _ Hm Ha Hp Hs Hx) as Hr.
    rewrite (shown_after _ _ _ _ _ _ _ Hr), Hr, Hp. split; [reflexivity|].
    apply accepted_page, Ha.
  - pose proof (accepted_run_raise _ _ _ _ _ Hm Ha Hp) as Hr.
    rewrite (shown_after _ _ _ _ _ _ _ Hr), Hr, Hp. split; [reflexivity|].
    rewrite (top_accepted _ _ Ha). unfold loading.
    now destruct (cached_model s).
Qed.

(** C5.  With the button pressed, the model is called only when both
    checks passed.  When a check fails the run ends normally, shows the
    messages of the failed checks and the request to fix them, and
    produces no call, no result card and no report.  When both pass, the
    model is called once on the row of the form, and with a pipeline fitted
    by [train_model.py] that run ends normally, without an error box. *)
Theorem prediction_is_gated (w : world) (s : state) (f : form) (m : Pipeline) :
  available w s = Some m ->
  predict_button f = true ->
  (predict_calls (shown w s f) <> [] ->
   (validate_age (age f)).1 = true
   /\ (validate_experience (experience f) (age f)).1 = true)
  /\ ((validate_age (age f)).1 = false
      \/ (validate_experience (experience f) (age f)).1 = false ->
      (main f w s).1 = ok tt
      /\ errors (shown w s f)
         = (if (validate_age (age f)).1 then []
            else [(validate_age (age f)).2])
           ++ (if (validate_experience (experience f) (age f)).1 then []
               else [(validate_experience (experience f) (age f)).2])
           ++ ["❌ Please fix the validation errors above before predicting."%string]
      /\ predict_calls (shown w s f) = []
      /\ card (shown w s f) = None
      /\ download (shown w s f) = None)
  /\ (accepted f = true ->
      currency f ∈ currency_options ->
      predict_calls (shown w s f)
      = [(input_columns f, predict m (input_columns f))]
      /\ (fitted TrainModel.pipeline m = true ->
          (main f w s).1 = ok tt /\ errors (shown w s f) = [])).
Proof.
  intros Hm Hb.
  assert (Hrej :
    (validate_age (age f)).1 = false
    \/ (validate_experience (experience f) (age f)).1 = false ->
    (main f w s).1 = ok tt
    /\ shown w s f
       = top s f
         ++ [Show (ErrorBox
               "❌ Please fix the validation errors above before predicting.")]).
  { intros Hv. pose proof (rejected_run _ _ _ _ Hm Hb Hv) as Hr.
    rewrite (shown_after _ _ _ _ _ _ _ Hr), Hr. now split. }
  split; [|split].
  - intros Hcalls.
    destruct ((validate_age (age f)).1) eqn:Hva;
      destruct ((validate_experience (experience f) (age f)).1) eqn:Hve;
      try (split; reflexivity); exfalso; apply Hcalls;
      (destruct Hrej as (_ & ->); [auto|]); apply rejected_page.
  - intros Hv. destruct (Hrej Hv) as (Hok & ->). split; [exact Hok|].
    pose proof (rejected_page s f
      "❌ Please fix the validation errors above before predicting.")
      as (Hc & Hcard & Hd & _ & He).
    now rewrite Hc, Hcard, Hd, He.
  - intros Ha Hc.
    split; [now apply (accepted_calls w s f m)|]. intros Hf.
    destruct (predict_fitted m f Hf) as (y & Hp).
    destruct (currency_cases _ Hc) as (sym & mult & Hs & Hx & _).
    pose proof (accepted_run _ _ _ _ _ _ _ _ Hm Ha Hp Hs Hx) as Hr.
    rewrite (shown_after _ _ _ _ _ _ _ Hr), Hr. split; [reflexivity|].
    apply accepted_page, Ha.
Qed.

(** The statement at the example form with age 61. *)
Lemma prediction_is_gated_witness :
  available (Example.disk Example.model) start = Some Example.model
  /\ predict_button Example.old_inputs = true
  /\ (validate_age (age Example.old_inputs)).1 = false
  /\ (main Example.old_inputs (Example.disk Example.model) start).1 = ok tt
  /\ predict_calls
       (shown (Example.disk Example.model) start Example.old_inputs) = [].
Proof.
  split; [reflexivity|]. split; [reflexivity|]. split; [reflexivity|].
  pose proof (prediction_is_gated (Example.disk Example.model) start
                Example.old_inputs Example.model eq_refl eq_refl)
    as (_ & H & _).
  destruct (H (or_introl eq_refl)) as (Hok & _ & Hcalls & _).
  split; [exact Hok | exact Hcalls].
Defined.

(** ** The figures, the chart and the report *)

(** What an accepted run shows, once the model has answered. *)
Lemma shown_accepted (w : world) (s : state) (f : form) (m : Pipeline)
      (p : float) (ps : list float) :
  available w s = Some m ->
  accepted f = true ->
  predict m (input_columns f) = ok (p :: ps) ->
  currency f ∈ currency_options ->
  exists sym mult,
    stated_multiplier (currency f) = Some mult
    /\ (main f w s).1 = ok tt
    /\ shown w s f = top s f ++ body w (ticks s) f p ps sym mult.
Proof.
  intros Hm Ha Hp Hc.
  destruct (currency_cases _ Hc) as (sym & mult & Hs & Hx & Hst & _).
  exists sym, mult. split; [exact Hst|].
  pose proof (accepted_run _ _ _ _ _ _ _ _ Hm Ha Hp Hs Hx) as Hr.
  now rewrite (shown_after _ _ _ _ _ _ _ Hr), Hr.
Qed.

(** C3.  Whatever the prediction [p] and the currency chosen, the amount on
    the card is [p] times the stated multiplier of that currency, and the
    monthly, hourly and daily figures are that amount divided by 12, by
    2080 (40 times 52) and by 365. *)
Theorem conversion_and_derived_figures (w : world) (s : state) (f : form)
        (m : Pipeline) (p : float) (ps : list float) :
  available w s = Some m ->
  accepted f = true ->
  predict m (input_columns f) = ok (p :: ps) ->
  currency f ∈ currency_options ->
  exists sym mult,
    stated_multiplier (currency f) = Some mult
    /\ card (shown w s f)
       = Some {| symbol := sym; number := p * mult; format := Grouped2 |}
    /\ metric "Monthly Salary" (shown w s f)
       = Some {| symbol := sym; number := p * mult / 12; format := Grouped2 |}
    /\ metric "Hourly Rate" (shown w s f)
       = Some {| symbol := sym; number := p * mult / (40 * 52);
                 format := Fixed2 |}
    /\ metric "Daily Earning" (shown w s f)
       = Some {| symbol := sym; number := p * mult / 365; format := Fixed2 |}.
Proof.
  intros Hm Ha Hp Hc.
  destruct (shown_accepted _ _ _ _ _ _ Hm Ha Hp Hc)
    as (sym & mult & Hst & _ & ->).
  exists sym, mult. split; [exact Hst|].
  destruct (accepted_page s f w (ticks s) p ps sym mult Ha)
    as (_ & _ & Hcard & Hmo & Hh & Hd & _).
  now rewrite Hcard, Hmo, Hh, Hd.
Qed.

(** The statement at the example form in US dollars. *)
Lemma conversion_and_derived_figures_witness :
  available (Example.disk Example.model) start = Some Example.model
  /\ accepted (Example.inputs "$ (USD)") = true
  /\ predict Example.model (input_columns (Example.inputs "$ (USD)"))
     = ok [640000%float]
  /\ currency (Example.inputs "$ (USD)") ∈ currency_options
  /\ exists sym mult,
       stated_multiplier "$ (USD)" = Some mult
       /\ card (shown (Example.disk Example.model) start
                  (Example.inputs "$ (USD)"))
          = Some {| symbol := sym; number := 640000 * mult;
                    format := Grouped2 |}
       /\ metric "Monthly Salary"
            (shown (Example.disk Example.model) start
               (Example.inputs "$ (USD)"))
          = Some {| symbol := sym; number := 640000 * mult / 12;
                    format := Grouped2 |}
       /\ metric "Hourly Rate"
            (shown (Example.disk Example.model) start
               (Example.inputs "$ (USD)"))
          = Some {| symbol := sym; number := 640000 * mult / (40 * 52);
                    format := Fixed2 |}
       /\ metric "Daily Earning"
            (shown (Example.disk Example.model) start
               (Example.inputs "$ (USD)"))
          = Some {| symbol := sym; number := 640000 * mult / 365;
                    format := Fixed2 |}.
Proof.
  assert (Hc : currency (Example.inputs "$ (USD)") ∈ currency_options)
    by (unfold currency_options; simpl; rewrite !elem_of_cons; auto).
  split; [reflexivity|]. split; [reflexivity|]. split; [reflexivity|].
  split; [exact Hc|].
  exact (conversion_and_derived_figures (Example.disk Example.model) start
           (Example.inputs "$ (USD)") Example.model 640000%float []
           eq_refl eq_refl eq_refl Hc).
Defined.

(** The report table: the nine stated columns over one row of the
    submitted values. *)
Lemma result_df_shape (f : form) (date : string) (p c : float) :
  (result_df f date p c).*1 = stated_columns
  /\ nrows (result_df f date p c) = 1%nat
  /\ rows (result_df f date p c)
     = [[ ("Prediction_Date"%string, VStr date);
          ("Age"%string, VInt (age f));
          ("Gender"%string, VStr (gender f));
          ("Education"%string, VStr (education_level f));
          ("Job_Title"%string, VStr (job_title f));
          ("Experience"%string, VInt (experience f));
          ("Predicted_Salary"%string, VFloat p);
          ("Currency"%string, VStr (currency f));
          ("Converted_Salary"%string, VFloat c) ]].
Proof. repeat split; reflexivity. Qed.

(** Its text: the header line, then one line of nine fields. *)
Lemma result_csv (repr : float -> string) (f : form) (date : string)
      (p c : float) :
  to_csv repr (result_df f date p c)
  = csv_line stated_columns
    +:+ csv_line [ csv_text date; pretty (age f); csv_text (gender f);
                   csv_text (education_level f); csv_text (job_title f);
                   pretty (experience f); repr p; csv_text (currency f);
                   repr c ].
Proof.
  unfold to_csv. destruct (result_df_shape f date p c) as (-> & _ & ->).
  cbn [fmap list_fmap String.concat snd].
  change (csv_text <$> stated_columns) with stated_columns.
  reflexivity.
Qed.

(** C6.  The file offered after a prediction is the CSV text of a table
    with the nine stated columns and exactly one row; that row holds the
    submitted age, gender, education, job title and experience, the
    prediction the model returned (the value charted as "You") and the
    converted amount shown on the card. *)
Theorem report_is_one_row_of_the_run (w : world) (s : state) (f : form)
        (m : Pipeline) (p : float) (ps : list float) :
  available w s = Some m ->
  accepted f = true ->
  predict m (input_columns f) = ok (p :: ps) ->
  currency f ∈ currency_options ->
  exists sym converted date name,
    let df := result_df f date p converted in
    download (shown w s f) = Some (to_csv (float_repr w) df, name)
    /\ df.*1 = stated_columns
    /\ nrows df = 1%nat
    /\ rows df
       = [[ ("Prediction_Date"%string, VStr date);
            ("Age"%string, VInt (age f));
            ("Gender"%string, VStr (gender f));
            ("Education"%string, VStr (education_level f));
            ("Job_Title"%string, VStr (job_title f));
            ("Experience"%string, VInt (experience f));
            ("Predicted_Salary"%string, VFloat p);
            ("Currency"%string, VStr (currency f));
            ("Converted_Salary"%string, VFloat converted) ]]
    /\ to_csv (float_repr w) df
       = csv_line stated_columns
         +:+ csv_line [ csv_text date; pretty (age f); csv_text (gender f);
                        csv_text (education_level f);
                        csv_text (job_title f); pretty (experience f);
                        float_repr w p; csv_text (currency f);
                        float_repr w converted ]
    /\ card (shown w s f)
       = Some {| symbol := sym; number := converted; format := Grouped2 |}
    /\ predict_calls (shown w s f) = [(input_columns f, ok (p :: ps))]
    /\ (show_charts f = true ->
        point "You" (shown w s f) = Some (VInt (experience f), VFloat p)).
Proof.
  intros Hm Ha Hp Hc.
  destruct (shown_accepted _ _ _ _ _ _ Hm Ha Hp Hc)
    as (sym & mult & _ & _ & ->).
  destruct (accepted_page s f w (ticks s) p ps sym mult Ha)
    as (Hcalls & _ & Hcard & _ & _ & _ & Hd & Hyou & _).
  exists sym, (p * mult)%float, (strftime_report (clock w (ticks s))),
    ("salary_prediction_" +:+ strftime_file (clock w (S (ticks s)))
     +:+ ".csv").
  cbv zeta. split; [exact Hd|].
  destruct (result_df_shape f (strftime_report (clock w (ticks s))) p
              (p * mult)%float) as (H1 & H2 & H3).
  split; [exact H1|]. split; [exact H2|]. split; [exact H3|].
  split; [apply result_csv|]. auto.
Qed.

(** The statement at the example form in euros. *)
Lemma report_is_one_row_of_the_run_witness :
  available (Example.disk Example.model) start = Some Example.model
  /\ accepted (Example.inputs "€ (EUR)") = true
  /\ predict Example.model (input_columns (Example.inputs "€ (EUR)"))
     = ok [640000%float]
  /\ currency (Example.inputs "€ (EUR)") ∈ currency_options
  /\ exists sym converted date name,
       download (shown (Example.disk Example.model) start
                   (Example.inputs "€ (EUR)"))
       = Some (to_csv (float_repr (Example.disk Example.model))
                 (result_df (Example.inputs "€ (EUR)") date 640000 converted),
               name)
       /\ card (shown (Example.disk Example.model) start
                  (Example.inputs "€ (EUR)"))
          = Some {| symbol := sym; number := converted; format := Grouped2 |}.
Proof.
  assert (Hc : currency (Example.inputs "€ (EUR)") ∈ currency_options)
    by (unfold currency_options; simpl; rewrite !elem_of_cons; auto).
  split; [reflexivity|]. split; [reflexivity|]. split; [reflexivity|].
  split; [exact Hc|].
  destruct (report_is_one_row_of_the_run (Example.disk Example.model) start
              (Example.inputs "€ (EUR)") Example.model 640000%float []
              eq_refl eq_refl eq_refl Hc)
    as (sym & converted & date & name & Hd & _ & _ & _ & _ & Hcard & _).
  exists sym, converted, date, name. split; [exact Hd | exact Hcard].
Defined.

(** ** Repeated predictions *)

(** C8.  Once a run has loaded the model, a later run on a form with the
    same row calls the same model on the same table and gets the same
    answer, whatever has become of the file on disk in between: the
    prediction is a function of the row and of the cached model. *)
Theorem prediction_is_repeatable (w w' : world) (s : state) (f f' : form)
        (m : Pipeline) :
  available w s = Some m ->
  accepted f = true ->
  currency f ∈ currency_options ->
  accepted f' = true ->
  currency f' ∈ currency_options ->
  input_columns f' = input_columns f ->
  predict_calls (shown w s f)
  = [(input_columns f, predict m (input_columns f))]
  /\ predict_calls (shown w' (main f w s).2 f')
     = predict_calls (shown w s f).
Proof.
  intros Hm Ha Hc Ha' Hc' Hrow.
  destruct (accepted_calls w s f m Hm Ha Hc) as (Hcache & Hcalls).
  split; [exact Hcalls|]. rewrite Hcalls.
  assert (Hm' : available w' (main f w s).2 = Some m)
    by (unfold available; now rewrite Hcache).
  destruct (accepted_calls w' _ f' m Hm' Ha' Hc') as (_ & ->).
  now rewrite Hrow.
Qed.

(** The statement at two runs of the example form, the second one in
    rupees and after the file has left the disk. *)
Lemma prediction_is_repeatable_witness :
  available (Example.disk Example.model) start = Some Example.model
  /\ accepted (Example.inputs "$ (USD)") = true
  /\ accepted (Example.inputs "₹ (INR)") = true
  /\ input_columns (Example.inputs "₹ (INR)")
     = input_columns (Example.inputs "$ (USD)")
  /\ predict_calls
       (shown Example.empty_disk
          (main (Example.inputs "$ (USD)") (Example.disk Example.model)
             start).2
          (Example.inputs "₹ (INR)"))
     = predict_calls
         (shown (Example.disk Example.model) start (Example.inputs "$ (USD)")).
Proof.
  assert (Hc : forall c, c = "$ (USD)"%string \/ c = "₹ (INR)"%string ->
                         currency (Example.inputs c) ∈ currency_options).
  { intros c [-> | ->]; unfold currency_options; simpl;
      rewrite !elem_of_cons; auto. }
  split; [reflexivity|]. split; [reflexivity|]. split; [reflexivity|].
  split; [reflexivity|].
  exact (proj2 (prediction_is_repeatable (Example.disk Example.model)
                  Example.empty_disk start (Example.inputs "$ (USD)")
                  (Example.inputs "₹ (INR)") Example.model eq_refl eq_refl
                  (Hc _ (or_introl eq_refl)) eq_refl
                  (Hc _ (or_intror eq_refl)) eq_refl)).
Defined.

(** ** The trainer's data *)

Section Sampling.
Context {A : Type} `{EqDecision A}.
Variable eqb : A -> A -> bool.
Hypothesis eqb_spec : forall x y, eqb x y = true <-> x = y.

Lemma favourable_absent (l : list A) (n : nat) (x : A) :
  x ∉ l -> TrainModel.favourable (TrainModel.choice l n) (eqb x) = 0%nat.
Proof.
  unfold TrainModel.favourable; simpl.
  induction l as [|y l IH]; [reflexivity|].
  rewrite not_elem_of_cons. intros [Hxy Hl].
  rewrite filter_cons_False; [now apply IH|].
  rewrite eqb_spec. exact Hxy.
Qed.

Lemma favourable_present (l : list A) (n : nat) (x : A) :
  NoDup l -> x ∈ l ->
  TrainModel.favourable (TrainModel.choice l n) (eqb x) = 1%nat.
Proof.
  unfold TrainModel.favourable; simpl.
  induction l as [|y l IH]; intros Hnd Hx; [now apply elem_of_nil in Hx|].
  apply NoDup_cons in Hnd as [Hy Hnd].
  apply elem_of_cons in Hx as [-> | Hx].
  - rewrite filter_cons_True by now apply eqb_spec.
    simpl. f_equal. now apply (favourable_absent l n).
  - rewrite filter_cons_False; [now apply IH|].
    rewrite eqb_spec. intros ->. contradiction.
Qed.

(** Without repeated outcomes, a sampler is uniform over its outcomes. *)
Lemma uniform_NoDup (s : TrainModel.sampler A) (support : A -> Prop) :
  NoDup (TrainModel.outcomes s) ->
  (forall x, support x <-> x ∈ TrainModel.outcomes s) ->
  TrainModel.uniform eqb s support (length (TrainModel.outcomes s)).
Proof.
  intros Hnd Hs. destruct s as [l n]. simpl in *.
  split; [reflexivity|]. intros x. rewrite Hs. split; intros Hx.
  - now apply (favourable_present l n).
  - now apply (favourable_absent l n).
Qed.
End Sampling.

Lemma uniform_randint (low high : Z) (n : nat) :
  low <= high ->
  TrainModel.uniform Z.eqb (TrainModel.randint low high n)
    (fun x => low <= x < high) (Z.to_nat (high - low)).
Proof.
  intros Hle.
  pose proof (uniform_NoDup Z.eqb Z.eqb_eq (TrainModel.randint low high n)
                (fun x => low <= x < high)) as H.
  simpl in H. rewrite length_seqZ in H. apply H.
  - apply NoDup_seqZ.
  - intros x. rewrite elem_of_seqZ. lia.
Qed.

Lemma uniform_choice (l : list string) (n : nat) :
  NoDup l ->
  TrainModel.uniform String.eqb (TrainModel.choice l n) (fun x => x ∈ l)
    (length l).
Proof.
  intros Hnd.
  apply (uniform_NoDup String.eqb String.eqb_eq (TrainModel.choice l n));
    [exact Hnd | reflexivity].
Qed.

(** What an array a sampler returned is known to satisfy. *)
Lemma drawn_inv {A} `{EqDecision A} (s : TrainModel.sampler A) (xs : list A) :
  TrainModel.drawn s xs = true ->
  length xs = TrainModel.size s
  /\ Forall (fun x => x ∈ TrainModel.outcomes s) xs.
Proof.
  unfold TrainModel.drawn. rewrite andb_true_iff, Nat.eqb_eq.
  intros [Hl Hf]. split; [exact Hl|].
  apply Forall_forall. intros x Hx.
  apply Is_true_true_2 in Hf. rewrite forallb_True, Forall_forall in Hf.
  apply (bool_decide_unpack _ (Hf x Hx)).
Qed.

Lemma possible_run_facts (w : TrainModel.draws) :
  TrainModel.possible_run w = true -> TrainModel.run_facts w.
Proof.
  unfold TrainModel.possible_run. rewrite !andb_true_iff.
  intros (((((Ha & Hg) & He) & Hj) & Hx) & Hn).
  apply drawn_inv in Ha as [La Fa], Hg as [Lg Fg], He as [Le Fe],
    Hj as [Lj Fj], Hx as [Lx Fx].
  unfold TrainModel.drawn_normal in Hn.
  apply andb_true_iff in Hn as [Ln _]. apply Nat.eqb_eq in Ln.
  split; try assumption.
  - eapply Forall_impl; [exact Fa|]. simpl. intros a.
    rewrite elem_of_seqZ. lia.
  - eapply Forall_impl; [exact Fx|]. simpl. intros a.
    rewrite elem_of_seqZ. lia.
Qed.

Lemma data_ok (w : TrainModel.draws) :
  TrainModel.run_facts w ->
  TrainModel.data w
  = ok [ ("Age"%string, Int64 (TrainModel.Age_draw w));
         ("Gender"%string, Object (VStr <$> TrainModel.Gender_draw w));
         ("Education Level"%string,
          Object (VStr <$> TrainModel.Education_draw w));
         ("Job Title"%string, Object (VStr <$> TrainModel.Job_draw w));
         ("Years of Experience"%string,
          Int64 (TrainModel.Experience_draw w)) ].
Proof.
  intros [La Lg Le Lj Lx _ _ _ _ _ _].
  unfold TrainModel.data, DataFrame_of_columns, nrows, series_length.
  cbn [forallb snd cells]. rewrite !length_fmap, La, Lg, Le, Lj, Lx.
  reflexivity.
Qed.

(** C7.  Each of the six calls asks for 300 draws; the ages are uniform
    over the 38 integers from 22 to 59 and the years of experience over
    the 35 integers from 0 to 34; gender, education and job title are
    uniform over their 2, 4 and 5 values; and in every run the table has
    300 rows whose cells lie in those ranges. *)
Theorem data_set_is_drawn_uniformly :
  (TrainModel.size TrainModel.Age_call = 300%nat
   /\ TrainModel.size TrainModel.Gender_call = 300%nat
   /\ TrainModel.size TrainModel.Education_call = 300%nat
   /\ TrainModel.size TrainModel.Job_call = 300%nat
   /\ TrainModel.size TrainModel.Experience_call = 300%nat)
  /\ TrainModel.uniform Z.eqb TrainModel.Age_call
       (fun a => 22 <= a < 60) 38
  /\ TrainModel.uniform Z.eqb TrainModel.Experience_call
       (fun x => 0 <= x < 35) 35
  /\ TrainModel.uniform String.eqb TrainModel.Gender_call
       (fun g => g ∈ ["Male"; "Female"]%string) 2
  /\ TrainModel.uniform String.eqb TrainModel.Education_call
       (fun e => e ∈ ["High School"; "Bachelor"; "Master"; "PhD"]%string) 4
  /\ TrainModel.uniform String.eqb TrainModel.Job_call
       (fun j => j ∈ ["Developer"; "Data Scientist"; "Manager"; "Analyst";
                      "Engineer"]%string) 5
  /\ (forall w,
        TrainModel.possible_run w = true ->
        exists d,
          TrainModel.data w = ok d
          /\ nrows d = 300%nat
          /\ Forall (fun c => series_length c.2 = 300%nat) d
          /\ column d "Age" = ok (Int64 (TrainModel.Age_draw w))
          /\ Forall (fun a => 22 <= a < 60) (TrainModel.Age_draw w)
          /\ column d "Years of Experience"
             = ok (Int64 (TrainModel.Experience_draw w))
          /\ Forall (fun x => 0 <= x < 35) (TrainModel.Experience_draw w)
          /\ column d "Gender"
             = ok (Object (VStr <$> TrainModel.Gender_draw w))
          /\ Forall (fun g => g ∈ TrainModel.Gender_values)
                    (TrainModel.Gender_draw w)
          /\ column d "Education Level"
             = ok (Object (VStr <$> TrainModel.Education_draw w))
          /\ Forall (fun e => e ∈ TrainModel.Education_values)
                    (TrainModel.Education_draw w)
          /\ column d "Job Title"
             = ok (Object (VStr <$> TrainModel.Job_draw w))
          /\ Forall (fun j => j ∈ TrainModel.Job_values)
                    (TrainModel.Job_draw w)).
Proof.
  split; [repeat split|].
  split; [apply (uniform_randint 22 60 300); lia|].
  split; [apply (uniform_randint 0 35 300); lia|].
  split; [apply (uniform_choice TrainModel.Gender_values 300);
          apply (bool_decide_unpack _); vm_compute; exact I|].
  split; [apply (uniform_choice TrainModel.Education_values 300);
          apply (bool_decide_unpack _); vm_compute; exact I|].
  split; [apply (uniform_choice TrainModel.Job_values 300);
          apply (bool_decide_unpack _); vm_compute; exact I|].
  intros w Hw. apply possible_run_facts in Hw.
  eexists. split; [apply data_ok, Hw|].
  destruct Hw as [La Lg Le Lj Lx Ln Fa Fg Fe Fj Fx].
  unfold nrows, series_length; cbn [snd cells].
  split; [now rewrite length_fmap|]. split.
  - repeat constructor; cbn [snd cells]; now rewrite ?length_fmap.
  - repeat split; assumption.
Qed.

(** ** The salary column *)

Lemma wrap64_small (z : Z) : - 2 ^ 63 <= z < 2 ^ 63 -> wrap64 z = z.
Proof.
  intros H. unfold wrap64. rewrite Z.mod_small; lia.
Qed.

Lemma education_offsets_lookup (e : string) :
  e ∈ TrainModel.Education_values ->
  TrainModel.education_offsets !! e
  = Some (TrainModel.stated_education_offset e)
  /\ 0 <= TrainModel.stated_education_offset e <= 200000.
Proof.
  unfold TrainModel.Education_values. rewrite !elem_of_cons, elem_of_nil.
  intros [-> | [-> | [-> | [-> | []]]]]; split;
    try (vm_compute; reflexivity); vm_compute; split; discriminate.
Qed.

Lemma job_offsets_lookup (j : string) :
  j ∈ TrainModel.Job_values ->
  TrainModel.job_offsets !! j = Some (TrainModel.stated_job_offset j)
  /\ 0 <= TrainModel.stated_job_offset j <= 500000.
Proof.
  unfold TrainModel.Job_values. rewrite !elem_of_cons, elem_of_nil.
  intros [-> | [-> | [-> | [-> | [-> | []]]]]]; split;
    try (vm_compute; reflexivity); vm_compute; split; discriminate.
Qed.

(** Mapping a text column whose cells are all keys gives an [int64]
    column. *)
Lemma series_map_known (d : gmap string Z) (f : string -> Z) (l : list string) :
  Forall (fun k => d !! k = Some (f k)) l ->
  series_map (Object (VStr <$> l)) d = Int64 (f <$> l).
Proof.
  intros Hl. unfold series_map. cbn [cells].
  assert (H : mapM id (map_cell d <$> (VStr <$> l)) = Some (f <$> l)).
  { induction Hl as [|k l Hk Hl IH]; [reflexivity|].
    cbn. rewrite Hk. cbn. cbn in IH. rewrite IH. reflexivity. }
  now rewrite H.
Qed.

Lemma series_add_int (l1 l2 : list Z) :
  length l1 = length l2 ->
  series_add (Int64 l1) (Int64 l2)
  = ok (Int64 (zip_with (fun x y => wrap64 (x + y)) l1 l2)).
Proof.
  intros H. unfold series_add, same_shape. now rewrite H, Nat.eqb_refl.
Qed.

Lemma series_add_float (l1 : list Z) (l2 : list float) :
  length l1 = length l2 ->
  series_add (Int64 l1) (Float64 l2)
  = ok (Float64 (zip_with (fun x y => (x + y)%float)
                   (float_of_int <$> l1) l2)).
Proof.
  intros H. unfold series_add, same_shape. cbn.
  now rewrite length_fmap, H, Nat.eqb_refl.
Qed.

(** The column computed by lines 19-37 in a possible run: row by row, the
    stated salary as a float, plus the noise drawn for the row. *)
Lemma Salary_run (w : TrainModel.draws) (d : DataFrame) :
  TrainModel.run_facts w ->
  TrainModel.data w = ok d ->
  exists base : list Z,
    TrainModel.Salary w d
    = ok (Float64 (zip_with (fun x y => (x + y)%float)
                     (float_of_int <$> base) (TrainModel.noise_draw w)))
    /\ length base = 300%nat
    /\ forall i age experience education job,
         TrainModel.Age_draw w !! i = Some age ->
         TrainModel.Experience_draw w !! i = Some experience ->
         TrainModel.Education_draw w !! i = Some education ->
         TrainModel.Job_draw w !! i = Some job ->
         base !! i
         = Some (TrainModel.stated_salary age experience education job).
Proof.
  intros Hw Hd. rewrite (data_ok w Hw) in Hd. injection Hd as <-.
  destruct Hw as [La Lg Le Lj Lx Ln Fa Fg Fe Fj Fx].
  unfold TrainModel.Salary.
  cbn [column assoc String.eqb Ascii.eqb Bool.eqb mbind result_bind rbind
       series_mul_int int_add_series ok].
  rewrite (series_map_known TrainModel.education_offsets
             TrainModel.stated_education_offset (TrainModel.Education_draw w))
    by (eapply Forall_impl; [exact Fe|]; intros e He;
        now apply education_offsets_lookup).
  rewrite (series_map_known TrainModel.job_offsets
             TrainModel.stated_job_offset (TrainModel.Job_draw w))
    by (eapply Forall_impl; [exact Fj|]; intros j Hj;
        now apply job_offsets_lookup).
  eexists. split; [|split].
  - rewrite series_add_int by now rewrite !length_fmap, La, Lx.
    cbn [mbind result_bind rbind ok].
    rewrite series_add_int
      by now rewrite length_zip_with, !length_fmap, La, Lx, Le.
    cbn [mbind result_bind rbind ok].
    rewrite series_add_int
      by now rewrite !length_zip_with, !length_fmap, La, Lx, Le, Lj.
    cbn [mbind result_bind rbind ok].
    rewrite series_add_float
      by now rewrite !length_zip_with, !length_fmap, La, Lx, Le, Lj, Ln.
    reflexivity.
  - rewrite !length_zip_with, !length_fmap, La, Lx, Le, Lj. reflexivity.
  - intros i age experience education job Ha Hx He Hj.
    rewrite !lookup_zip_with, !list_lookup_fmap, Ha, Hx, He, Hj. cbn.
    f_equal.
    pose proof (proj1 (Forall_lookup _ _) Fa i age Ha) as Ba.
    pose proof (proj1 (Forall_lookup _ _) Fx i experience Hx) as Bx.
    pose proof (proj1 (Forall_lookup _ _) Fe i education He) as Be.
    pose proof (proj1 (Forall_lookup _ _) Fj i job Hj) as Bj.
    apply education_offsets_lookup in Be as [_ Be].
    apply job_offsets_lookup in Bj as [_ Bj]. simpl in Ba, Bx.
    unfold TrainModel.stated_salary, TrainModel.base_salary.
    rewrite (wrap64_small (age * 3000)) by lia.
    rewrite (wrap64_small (experience * 15000)) by lia.
    rewrite (wrap64_small (250000 + _)) by lia.
    rewrite (wrap64_small (250000 + _ + _)) by lia.
    rewrite (wrap64_small (250000 + _ + _ + _)) by lia.
    rewrite (wrap64_small (250000 + _ + _ + _ + _)) by lia.
    reflexivity.
Qed.

(** C4.  In every possible run the salary column has 300 cells, and the
    cell of a row is the stated sum (250000, 3000 per year of age, 15000
    per year of experience, the education offset and the job offset) as a
    float, plus the noise drawn for that row: the row's own cells and its
    noise determine it. *)
Theorem salary_is_formula_plus_noise (w : TrainModel.draws) :
  TrainModel.possible_run w = true ->
  exists d salaries,
    TrainModel.data w = ok d
    /\ TrainModel.labelled_data w
       = ok (d ++ [("Salary"%string, Float64 salaries)])
    /\ length salaries = 300%nat
    /\ forall i age experience education job noise,
         TrainModel.Age_draw w !! i = Some age ->
         TrainModel.Experience_draw w !! i = Some experience ->
         TrainModel.Education_draw w !! i = Some education ->
         TrainModel.Job_draw w !! i = Some job ->
         TrainModel.noise_draw w !! i = Some noise ->
         salaries !! i
         = Some (float_of_int
                   (250000 + age * 3000 + experience * 15000
                    + TrainModel.stated_education_offset education
                    + TrainModel.stated_job_offset job)
                 + noise)%float.
Proof.
  intros Hw%possible_run_facts.
  pose proof (data_ok w Hw) as Hd.
  destruct (Salary_run w _ Hw Hd) as (base & Hs & Lb & Hb).
  eexists _, _. split; [exact Hd|].
  unfold TrainModel.labelled_data. rewrite Hd.
  cbn [mbind result_bind rbind ok]. rewrite Hs.
  split; [reflexivity|]. split.
  - rewrite length_zip_with, length_fmap, Lb, (TrainModel.noises_len w Hw).
    reflexivity.
  - intros i age experience education job noise Ha Hx He Hj Hn.
    rewrite lookup_zip_with, list_lookup_fmap,
      (Hb i age experience education job Ha Hx He Hj), Hn.
    reflexivity.
Qed.

(** The statement at the run whose draws are all the same, row 7. *)
Lemma salary_is_formula_plus_noise_witness :
  TrainModel.possible_run Example.constant_run = true
  /\ exists d salaries,
       TrainModel.labelled_data Example.constant_run
       = ok (d ++ [("Salary"%string, Float64 salaries)])
       /\ salaries !! 7%nat
          = Some (float_of_int
                    (250000 + 30 * 3000 + 5 * 15000 + 50000 + 200000)
                  + 1.5)%float.
Proof.
  split; [vm_compute; reflexivity|].
  destruct (salary_is_formula_plus_noise Example.constant_run)
    as (d & salaries & _ & Hl & _ & Hi); [vm_compute; reflexivity|].
  exists d, salaries. split; [exact Hl|].
  exact (Hi 7%nat 30 5 "Bachelor"%string "Developer"%string 1.5%float
           eq_refl eq_refl eq_refl eq_refl eq_refl).
Defined.

(** ** Binary64 products with the two conversion rates

    The rates 0.012 and 0.011 are normal floats between 2^-7 and 2^-6.
    The product of a finite non-zero float with such a number is never the
    float itself: its exponent is at least five below, or the result is
    subnormal with a smaller mantissa. *)

Lemma digits2_pos_bounds (p : positive) :
  2 ^ (Zpos (digits2_pos p) - 1) <= Zpos p < 2 ^ Zpos (digits2_pos p).
Proof.
  induction p as [p IH | p IH |]; cbn [digits2_pos].
  - rewrite Pos2Z.inj_succ. change (Zpos p~1) with (2 * Zpos p + 1).
    replace (Z.succ (Zpos (digits2_pos p)) - 1)
      with (Z.succ (Zpos (digits2_pos p) - 1)) by lia.
    rewrite !Z.pow_succ_r by lia. lia.
  - rewrite Pos2Z.inj_succ. change (Zpos p~0) with (2 * Zpos p).
    replace (Z.succ (Zpos (digits2_pos p)) - 1)
      with (Z.succ (Zpos (digits2_pos p) - 1)) by lia.
    rewrite !Z.pow_succ_r by lia. lia.
  - cbn. lia.
Qed.

Lemma shr_1_m (mrs : shr_record) :
  0 <= shr_m mrs -> shr_m (shr_1 mrs) = shr_m mrs / 2.
Proof.
  destruct mrs as [m r s]. cbn [shr_m]. intros Hm.
  rewrite <- Z.div2_div.
  destruct m as [|[p|p|]|p]; try reflexivity; lia.
Qed.

Lemma iter_shr_1_m (n : positive) (mrs : shr_record) :
  0 <= shr_m mrs ->
  shr_m (SpecFloat.iter_pos shr_1 n mrs) = shr_m mrs / 2 ^ Zpos n.
Proof.
  revert mrs.
  induction n as [n IH | n IH |]; intros mrs Hm; cbn [SpecFloat.iter_pos].
  - assert (H1 : 0 <= shr_m (shr_1 mrs))
      by (rewrite shr_1_m by exact Hm; apply Z.div_pos; lia).
    assert (H2 : 0 <= shr_m (SpecFloat.iter_pos shr_1 n (shr_1 mrs)))
      by (rewrite IH by exact H1; apply Z.div_pos; [exact H1 | lia]).
    rewrite (IH _ H2), (IH _ H1), (shr_1_m _ Hm).
    rewrite !Z.div_div by lia.
    f_equal. rewrite Pos2Z.inj_xI.
    rewrite <- Z.pow_add_r, <- (Z.pow_1_r 2) at 1 by lia.
    rewrite <- Z.pow_add_r by lia. f_equal. lia.
  - assert (H2 : 0 <= shr_m (SpecFloat.iter_pos shr_1 n mrs))
      by (rewrite IH by exact Hm; apply Z.div_pos; [exact Hm | lia]).
    rewrite (IH _ H2), (IH _ Hm).
    rewrite !Z.div_div by lia.
    f_equal. rewrite Pos2Z.inj_xO, <- Z.pow_add_r by lia. f_equal. lia.
  - rewrite shr_1_m by exact Hm. reflexivity.
Qed.

Lemma round_nearest_even_bounds (m : Z) (l : location) :
  m <= round_nearest_even m l <= m + 1.
Proof.
  destruct l as [|[]]; cbn [round_nearest_even]; try lia.
  destruct (Z.even m); lia.
Qed.

Lemma finish_finite (sx s : bool) (x e' : Z) (m : positive) (e : Z) :
  0 <= x < 2 ^ 54 -> -1074 <= e' ->
  Py.finish sx x e' = S754_finite s m e ->
  e <= e' + 1 /\ (x < 2 ^ 53 -> Zpos m = x /\ e = e').
Proof.
  intros Hx He'. unfold Py.finish, shr_fexp, shr, fexp, emin.
  change (3 - emax - prec) with (-1074). change prec with 53.
  change (emax - 53) with 971.
  destruct x as [|px|px]; [ | | lia].
  - cbn [Zdigits2 shr_record_of_loc].
    destruct (Z.max (0 + e' - 53) (-1074) - e') eqn:Hn; try lia;
      cbn [shr_m]; discriminate.
  - cbn [Zdigits2 shr_record_of_loc].
    pose proof (digits2_pos_bounds px) as Hd.
    assert (Hd54 : Zpos (digits2_pos px) <= 54).
    { destruct (Z_le_gt_dec (Zpos (digits2_pos px)) 54) as [H|H]; [exact H|].
      exfalso.
      assert (2 ^ 54 <= 2 ^ (Zpos (digits2_pos px) - 1))
        by (apply Z.pow_le_mono_r; lia).
      lia. }
    destruct (Z.max (Zpos (digits2_pos px) + e' - 53) (-1074) - e') eqn:Hn.
    + cbn [shr_m]. destruct (e' <=? 971); [|discriminate].
      intros H. injection H as _ <- <-. split; [lia|]. now split.
    + rewrite iter_shr_1_m by (cbn; lia). cbn [shr_m].
      assert (Hp : Zpos p = 1) by lia.
      assert (H53 : 2 ^ 53 <= Zpos px).
      { assert (Zpos (digits2_pos px) = 54) by lia.
        replace 53 with (Zpos (digits2_pos px) - 1) by lia. apply Hd. }
      destruct (Zpos px / 2 ^ Zpos p); try discriminate.
      destruct (e' + Zpos p <=? 971); [|discriminate].
      intros H. injection H as _ _ <-. split; lia.
    + cbn [shr_m]. destruct (e' <=? 971); [|discriminate].
      intros H. injection H as _ <- <-. split; [lia|]. now split.
Qed.

Lemma binary_round_aux_finish (sx : bool) (mx ex : Z) (lx : location) :
  binary_round_aux prec emax sx mx ex lx
  = let '(mrs', e') := shr_fexp prec emax mx ex lx in
    Py.finish sx (round_nearest_even (shr_m mrs') (loc_of_shr_record mrs')) e'.
Proof. reflexivity. Qed.

Section Shrink.
Variable mc : positive.
Hypothesis mc_normal : 2 ^ 52 <= Zpos mc < 2 ^ 53.
Hypothesis tiny :
  forall s, binary_round_aux prec emax s (Zpos mc) (-1133) loc_Exact
            = S754_zero s.

Lemma product_is_not_the_factor (s s' : bool) (m : positive) (e : Z) :
  bounded prec emax m e = true ->
  binary_round_aux prec emax s' (Zpos (m * mc)) (e + -59) loc_Exact
  <> S754_finite s m e.
Proof.
  intros Hb Hr. pose proof Hr as Hr0.
  unfold bounded, canonical_mantissa, fexp, emin in Hb.
  change (3 - emax - prec) with (-1074) in Hb. change prec with 53 in Hb.
  apply andb_true_iff in Hb as [Hc _]. apply Z.eqb_eq in Hc.
  pose proof (digits2_pos_bounds m) as Hdm.
  assert (Hdm53 : Zpos (digits2_pos m) <= 53) by lia.
  assert (He : -1074 <= e) by lia.
  assert (Hm : Zpos m < 2 ^ 53).
  { assert (2 ^ Zpos (digits2_pos m) <= 2 ^ 53)
      by (apply Z.pow_le_mono_r; lia). lia. }
  pose proof (digits2_pos_bounds (m * mc)) as HdM.
  set (dM := Zpos (digits2_pos (m * mc))) in *.
  rewrite Pos2Z.inj_mul in HdM.
  assert (HM1 : 2 ^ 52 <= Zpos m * Zpos mc) by nia.
  assert (HM2 : Zpos m * Zpos mc < Zpos m * 2 ^ 53) by nia.
  assert (HdM53 : 53 <= dM).
  { destruct (Z_le_gt_dec 53 dM) as [H|H]; [exact H|]. exfalso.
    assert (2 ^ dM <= 2 ^ 52) by (apply Z.pow_le_mono_r; lia). lia. }
  assert (HdM106 : dM <= 106).
  { destruct (Z_le_gt_dec dM 106) as [H|H]; [exact H|]. exfalso.
    assert (2 ^ 106 <= 2 ^ (dM - 1)) by (apply Z.pow_le_mono_r; lia).
    assert (Zpos m * 2 ^ 53 < 2 ^ 53 * 2 ^ 53) by nia.
    change (2 ^ 53 * 2 ^ 53) with (2 ^ 106) in *. lia. }
  assert (Hm_one' : dM = 53 -> e = -1074).
  { intros H53. rewrite H53 in HdM.
    assert (Zpos m = 1) by nia.
    assert (m = 1%positive) as -> by lia.
    change (digits2_pos 1) with 1%positive in Hc. lia. }
  rewrite binary_round_aux_finish in Hr.
  unfold shr_fexp, shr, fexp, emin in Hr.
  change (3 - emax - prec) with (-1074) in Hr. change prec with 53 in Hr.
  cbn [Zdigits2 shr_record_of_loc] in Hr. fold dM in Hr.
  destruct (Z.max (dM + (e + -59) - 53) (-1074) - (e + -59)) as [|n|n]
    eqn:Hn; try lia.
  set (mrs := SpecFloat.iter_pos shr_1 n _) in Hr.
  assert (Hm1 : shr_m mrs = Zpos m * Zpos mc / 2 ^ Zpos n).
  { unfold mrs. rewrite iter_shr_1_m by (cbn; lia). cbn [shr_m].
    now rewrite Pos2Z.inj_mul. }
  assert (Hpow : 0 < 2 ^ Zpos n) by (apply Z.pow_pos_nonneg; lia).
  assert (Hm1lo : 0 <= shr_m mrs)
    by (rewrite Hm1; apply Z.div_pos; lia).
  assert (Hm1hi : shr_m mrs < 2 ^ 53).
  { rewrite Hm1. apply Z.div_lt_upper_bound; [exact Hpow|].
    rewrite <- Z.pow_add_r by lia.
    assert (2 ^ dM <= 2 ^ (Zpos n + 53)) by (apply Z.pow_le_mono_r; lia).
    lia. }
  pose proof (round_nearest_even_bounds (shr_m mrs) (loc_of_shr_record mrs))
    as Hrnd.
  set (x := round_nearest_even (shr_m mrs) (loc_of_shr_record mrs)) in *.
  assert (H54 : 2 ^ 53 + 1 <= 2 ^ 54) by (cbn; lia).
  destruct (finish_finite s' s x (e + -59 + Zpos n) m e) as [Hle Hsmall];
    [lia | lia | exact Hr |].
  (* the shift was at least 58, so the result is subnormal *)
  assert (Hn58 : 58 <= Zpos n) by lia.
  assert (Hle58 : shr_m mrs * 2 ^ 58 <= Zpos m * Zpos mc).
  { assert (2 ^ 58 <= 2 ^ Zpos n) by (apply Z.pow_le_mono_r; lia).
    pose proof (Z.mul_div_le (Zpos m * Zpos mc) (2 ^ Zpos n) Hpow).
    rewrite <- Hm1 in *. nia. }
  assert (H32 : shr_m mrs * 32 < Zpos m).
  { change (2 ^ 58) with (32 * 2 ^ 53) in Hle58. nia. }
  destruct Hsmall as [Hmx Hee]; [lia|].
  assert (Hn59 : Zpos n = 59) by lia.
  assert (Hle59 : shr_m mrs * 2 ^ 59 <= Zpos m * Zpos mc).
  { pose proof (Z.mul_div_le (Zpos m * Zpos mc) (2 ^ Zpos n) Hpow).
    rewrite <- Hm1, Hn59 in *. lia. }
  assert (H64 : shr_m mrs * 64 < Zpos m).
  { change (2 ^ 59) with (64 * 2 ^ 53) in Hle59. nia. }
  assert (Hm_one : m = 1%positive) by lia.
  assert (He_min : e = -1074) by lia.
  subst m e. cbn [Pos.mul Z.add Z.pos_sub Z.succ_double Z.pred_double
                    Z.double Pos.add Pos.succ Pos.pred_double Z.opp] in Hr0.
  change (Zpos (1 * mc)) with (Zpos mc) in Hr0.
  change (-1074 + -59) with (-1133) in Hr0.
  rewrite tiny in Hr0. discriminate.
Qed.
End Shrink.

Lemma finite_nonzero_inv (p : float) :
  is_finite p = true -> is_zero p = false ->
  exists s m e, Prim2SF p = S754_finite s m e
                /\ bounded prec emax m e = true.
Proof.
  intros Hf Hz.
  pose proof (Prim2SF_valid p) as Hv.
  unfold is_finite, is_nan, is_infinity in Hf. unfold is_zero in Hz.
  rewrite !FloatAxioms.eqb_spec, abs_spec in Hf.
  rewrite FloatAxioms.eqb_spec in Hz.
  destruct (Prim2SF p) as [s | s | | s m e].
  - destruct s; discriminate.
  - destruct s; discriminate.
  - discriminate.
  - now exists s, m, e.
Qed.

(** A finite non-zero float is changed by a product with a normal float
    between 2^-7 and 2^-6. *)
Lemma mul_small_changes (p c : float) (mc : positive) :
  Prim2SF c = S754_finite false mc (-59) ->
  2 ^ 52 <= Zpos mc < 2 ^ 53 ->
  (forall s, binary_round_aux prec emax s (Zpos mc) (-1133) loc_Exact
             = S754_zero s) ->
  is_finite p = true -> is_zero p = false ->
  (p * c)%float <> p.
Proof.
  intros Hc Hmc Htiny Hf Hz Heq.
  destruct (finite_nonzero_inv p Hf Hz) as (s & m & e & Hp & Hb).
  apply (f_equal Prim2SF) in Heq. rewrite mul_spec, Hp, Hc in Heq.
  exact (product_is_not_the_factor mc Hmc Htiny s (xorb s false) m e Hb Heq).
Qed.

Lemma mul_012_changes (p : float) :
  is_finite p = true -> is_zero p = false -> (p * 0.012)%float <> p.
Proof.
  apply (mul_small_changes p 0.012%float 6917529027641082).
  - reflexivity.
  - split; [vm_compute; discriminate | reflexivity].
  - intros []; reflexivity.
Qed.

Lemma mul_011_changes (p : float) :
  is_finite p = true -> is_zero p = false -> (p * 0.011)%float <> p.
Proof.
  apply (mul_small_changes p 0.011%float 6341068275337658).
  - reflexivity.
  - split; [vm_compute; discriminate | reflexivity].
  - intros []; reflexivity.
Qed.

(** ** The chart *)

(** C10, as the claim states it, fails when the model predicts zero: with
    US dollars chosen, the "You" point is charted at salary 0 and the card
    shows the converted amount 0 as well. *)
Lemma you_point_can_equal_the_card :
  currency (Example.inputs "$ (USD)") = "$ (USD)"%string
  /\ show_charts (Example.inputs "$ (USD)") = true
  /\ accepted (Example.inputs "$ (USD)") = true
  /\ fitted TrainModel.pipeline Example.flat_model = true
  /\ predict Example.flat_model (input_columns (Example.inputs "$ (USD)"))
     = ok [0%float]
  /\ point "You"
       (shown (Example.disk Example.flat_model) start
          (Example.inputs "$ (USD)"))
     = Some (VInt 5, VFloat 0)
  /\ card (shown (Example.disk Example.flat_model) start
             (Example.inputs "$ (USD)"))
     = Some {| symbol := "$"; number := 0; format := Grouped2 |}.
Proof. repeat split; vm_compute; reflexivity. Qed.

(** C10, amended.  When the charts are shown, the "You" point has the
    submitted experience as its x-coordinate and the prediction the model
    returned as its salary, whatever the currency; and with US dollars or
    euros chosen, the amount on the card differs from that charted salary
    whenever the prediction is a finite non-zero number. *)
Theorem you_point_is_the_raw_prediction (w : world) (s : state) (f : form)
        (m : Pipeline) (p : float) (ps : list float) :
  available w s = Some m ->
  accepted f = true ->
  predict m (input_columns f) = ok (p :: ps) ->
  currency f ∈ currency_options ->
  show_charts f = true ->
  point "You" (shown w s f) = Some (VInt (experience f), VFloat p)
  /\ (currency f = "$ (USD)"%string \/ currency f = "€ (EUR)"%string ->
      is_finite p = true ->
      is_zero p = false ->
      exists a, card (shown w s f) = Some a /\ number a <> p).
Proof.
  intros Hm Ha Hp Hc Hcharts.
  destruct (currency_cases _ Hc) as (sym & mult & Hs & Hx & _ & Hcases).
  pose proof (accepted_run _ _ _ _ _ _ _ _ Hm Ha Hp Hs Hx) as Hr.
  rewrite (shown_after _ _ _ _ _ _ _ Hr).
  destruct (accepted_page s f w (ticks s) p ps sym mult Ha)
    as (_ & _ & Hcard & _ & _ & _ & _ & Hyou & _).
  split; [now apply Hyou|].
  intros Hcur Hfin Hnz. eexists. split; [exact Hcard|]. cbn [number].
  destruct Hcases as [(Hi & _) | [(_ & _ & ->) | (_ & _ & ->)]].
  - destruct Hcur as [Hu | Hu]; rewrite Hu in Hi; discriminate.
  - now apply mul_012_changes.
  - now apply mul_011_changes.
Qed.

(** The statement at the example form in US dollars. *)
Lemma you_point_is_the_raw_prediction_witness :
  available (Example.disk Example.model) start = Some Example.model
  /\ accepted (Example.inputs "$ (USD)") = true
  /\ predict Example.model (input_columns (Example.inputs "$ (USD)"))
     = ok [640000%float]
  /\ currency (Example.inputs "$ (USD)") ∈ currency_options
  /\ show_charts (Example.inputs "$ (USD)") = true
  /\ is_finite 640000 = true
  /\ is_zero 640000 = false
  /\ point "You"
       (shown (Example.disk Example.model) start (Example.inputs "$ (USD)"))
     = Some (VInt 5, VFloat 640000)
  /\ exists a,
       card (shown (Example.disk Example.model) start
               (Example.inputs "$ (USD)")) = Some a
       /\ number a <> 640000%float.
Proof.
  assert (Hc : currency (Example.inputs "$ (USD)") ∈ currency_options)
    by (unfold currency_options; simpl; rewrite !elem_of_cons; auto).
  do 3 (split; [reflexivity|]). split; [exact Hc|].
  do 3 (split; [reflexivity|]).
  destruct (you_point_is_the_raw_prediction (Example.disk Example.model)
              start (Example.inputs "$ (USD)") Example.model 640000%float []
              eq_refl eq_refl eq_refl Hc eq_refl) as [Hyou Hcard].
  split; [exact Hyou|].
  exact (Hcard (or_introl eq_refl) eq_refl eq_refl).
Defined.


(* ===================================================================== *)
(** * Part 3. Further properties of the two scripts                       *)
(* ===================================================================== *)

(** ** Loading the model *)

(** With nothing cached and no file, [main] stops at its first line. *)
Lemma missing_model_run (w : world) (s : state) (f : form) :
  available w s = None ->
  main f w s
  = (raise (FileNotFoundError "salary_prediction_pipeline.pkl"),
     logged s 0 [ReadFile "salary_prediction_pipeline.pkl"]).
Proof.
  unfold available. destruct s as [c t l]; simpl.
  destruct c as [m|]; [discriminate|]. intros Hf.
  unfold main. apply bind_raise.
  unfold load_model, cache_resource; simpl.
  unfold joblib_load. erewrite bind_run by apply emit_run.
  cbv [mbind M_bind bind ask lift ok]. now rewrite Hf.
Qed.

(** X1.  When no model is cached and the file is not on disk, [main]
    raises [FileNotFoundError] whatever the form: nothing is shown, the
    model is not called, no clock reading is taken and the cache stays
    empty, so that the next run looks for the file again. *)
Theorem missing_model_aborts_main (w : world) (s : state) (f : form) :
  available w s = None ->
  (main f w s).1 = raise (FileNotFoundError "salary_prediction_pipeline.pkl")
  /\ shown w s f = [ReadFile "salary_prediction_pipeline.pkl"]
  /\ widgets (shown w s f) = []
  /\ predict_calls (shown w s f) = []
  /\ cached_model (main f w s).2 = None
  /\ ticks (main f w s).2 = ticks s.
Proof.
  intros Hm. pose proof (missing_model_run w s f Hm) as Hr.
  assert (Hs : shown w s f = [ReadFile "salary_prediction_pipeline.pkl"]).
  { unfold shown. rewrite Hr. simpl. now rewrite drop_app_length. }
  rewrite Hs, Hr. repeat split; try reflexivity.
  unfold available in Hm. simpl. now destruct (cached_model s).
Qed.

(** The statement at a fresh process on a disk without the file. *)
Lemma missing_model_aborts_main_witness :
  available Example.empty_disk start = None
  /\ (main (Example.inputs "$ (USD)") Example.empty_disk start).1
     = raise (FileNotFoundError "salary_prediction_pipeline.pkl")
  /\ widgets (shown Example.empty_disk start (Example.inputs "$ (USD)")) = [].
Proof.
  split; [reflexivity|].
  destruct (missing_model_aborts_main Example.empty_disk start
              (Example.inputs "$ (USD)") eq_refl) as (H1 & _ & H2 & _).
  split; [exact H1 | exact H2].
Defined.

(** *** Computations that leave the cache alone *)

Lemma quiet_ret {A} (a : A) : quiet (ret a).
Proof. intros w s. split; [reflexivity|]. exists []. now rewrite app_nil_r. Qed.

Lemma quiet_lift {A} (r : result A) : quiet (lift r).
Proof. intros w s. split; [reflexivity|]. exists []. now rewrite app_nil_r. Qed.

Lemma quiet_ask : quiet ask.
Proof. intros w s. split; [reflexivity|]. exists []. now rewrite app_nil_r. Qed.

Lemma quiet_now : quiet now.
Proof.
  intros w s. split; [reflexivity|]. exists []. simpl. now rewrite app_nil_r.
Qed.

Lemma quiet_emit (e : event) : is_read e = false -> quiet (emit e).
Proof.
  intros He w s. split; [reflexivity|]. exists [e]. simpl. now rewrite He.
Qed.

Lemma quiet_bind {A B} (c : M A) (k : A -> M B) :
  quiet c -> (forall a, quiet (k a)) -> quiet (c ≫= k).
Proof.
  intros Hc Hk w s. cbv [mbind M_bind bind].
  destruct (Hc w s) as (Hcache & es & Hlog & Hes).
  destruct (c w s) as [[e|a] s']; simpl in *.
  - split; [exact Hcache|]. now exists es.
  - destruct (Hk a w s') as (Hcache' & es' & Hlog' & Hes').
    split; [congruence|]. exists (es ++ es').
    rewrite Hlog', Hlog, <- app_assoc. split; [reflexivity|].
    rewrite existsb_app, Hes, Hes'. reflexivity.
Qed.

Lemma quiet_if {A} (b : bool) (c1 c2 : M A) :
  quiet c1 -> quiet c2 -> quiet (if b then c1 else c2).
Proof. now destruct b. Qed.

Ltac solve_quiet :=
  repeat first
    [ apply quiet_ret | apply quiet_lift | apply quiet_ask | apply quiet_now
    | apply quiet_emit; reflexivity
    | apply quiet_if
    | apply quiet_bind; [|intros ?] ].

(** What [main] does once the model is at hand. *)
Lemma quiet_after_load (m : Pipeline) (f : form) (w : world) (s : state) :
  cached_model s = Some m ->
  exists c : M unit, quiet c /\ main f w s = c w s.
Proof.
  intros Hc.
  assert (Hl : load_model w s = (ok m, s))
    by (unfold load_model, cache_resource; now rewrite Hc).
  unfold main. erewrite bind_run by exact Hl.
  eexists. split; [|reflexivity]. unfold show.
  destruct (validate_age (age f)) as [age_valid age_msg].
  destruct (validate_experience (experience f) (age f))
    as [exp_valid exp_msg].
  solve_quiet.
Qed.

(** X2.  Once a model is cached, every run of [main], whatever the form
    and the disk and whether it ends normally or raises, leaves that
    same model in the cache and does not read the file again. *)
Theorem cached_model_is_kept (w : world) (s : state) (f : form)
        (m : Pipeline) :
  cached_model s = Some m ->
  cached_model (main f w s).2 = Some m
  /\ existsb is_read (shown w s f) = false.
Proof.
  intros Hc. destruct (quiet_after_load m f w s Hc) as (c & Hq & Hmain).
  destruct (Hq w s) as (Hcache & es & Hlog & Hes).
  unfold shown. rewrite Hmain. split; [congruence|].
  now rewrite Hlog, drop_app_length.
Qed.

(** The statement at a warm state, a form with an unknown currency and a
    disk without the file. *)
Lemma cached_model_is_kept_witness :
  cached_model Example.warm = Some Example.model
  /\ cached_model
       (main (Example.inputs "£ (GBP)") Example.empty_disk Example.warm).2
     = Some Example.model
  /\ existsb is_read
       (shown Example.empty_disk Example.warm (Example.inputs "£ (GBP)"))
     = false.
Proof.
  split; [reflexivity|].
  exact (cached_model_is_kept Example.empty_disk Example.warm
           (Example.inputs "£ (GBP)") Example.model eq_refl).
Defined.

(** ** Running [main], continued *)

(** The readings of the part every run shows. *)
Lemma top_page (s : state) (f : form) :
  predict_calls (top s f) = []
  /\ card (top s f) = None
  /\ download (top s f) = None
  /\ scatter (top s f) = None
  /\ existsb is_sleep (top s f) = false
  /\ errors (top s f)
     = (if (validate_age (age f)).1 then [] else [(validate_age (age f)).2])
       ++ (if (validate_experience (experience f) (age f)).1 then []
           else [(validate_experience (experience f) (age f)).2]).
Proof.
  unfold top, complaints, loading.
  destruct (cached_model s), (validate_age (age f)) as [[] ?],
    (validate_experience (experience f) (age f)) as [[] ?];
    repeat split; reflexivity.
Qed.

Lemma without_button_run (w : world) (s : state) (f : form) (m : Pipeline) :
  available w s = Some m ->
  predict_button f = false ->
  (main f w s).1 = ok tt /\ shown w s f = top s f.
Proof.
  intros Hm Hb. pose proof (main_run w s f m Hm) as Hr. rewrite Hb in Hr.
  now rewrite (shown_after _ _ _ _ _ _ _ Hr), Hr.
Qed.

(** X3.  While the button is not pressed, a run ends normally and shows
    the header, the messages of the checks that fail and the rule, and
    nothing else: the model is not called, there is no one-second wait, no
    clock reading, no card and no report.  The messages of failed checks
    are thus on the page before any attempt to predict. *)
Theorem without_the_button (w : world) (s : state) (f : form) (m : Pipeline) :
  available w s = Some m ->
  predict_button f = false ->
  (main f w s).1 = ok tt
  /\ shown w s f = top s f
  /\ errors (shown w s f)
     = (if (validate_age (age f)).1 then [] else [(validate_age (age f)).2])
       ++ (if (validate_experience (experience f) (age f)).1 then []
           else [(validate_experience (experience f) (age f)).2])
  /\ predict_calls (shown w s f) = []
  /\ existsb is_sleep (shown w s f) = false
  /\ ticks (main f w s).2 = ticks s
  /\ card (shown w s f) = None
  /\ download (shown w s f) = None.
Proof.
  intros Hm Hb. pose proof (main_run w s f m Hm) as Hr. rewrite Hb in Hr.
  rewrite (shown_after _ _ _ _ _ _ _ Hr), Hr.
  destruct (top_page s f) as (H1 & H2 & H3 & _ & H4 & H5).
  rewrite H1, H2, H3, H4, H5. repeat split; reflexivity.
Qed.

(** The statement at the example form, not yet submitted. *)
Lemma without_the_button_witness :
  available (Example.disk Example.model) start = Some Example.model
  /\ predict_button Example.idle = false
  /\ (main Example.idle (Example.disk Example.model) start).1 = ok tt
  /\ predict_calls (shown (Example.disk Example.model) start Example.idle)
     = [].
Proof.
  split; [reflexivity|]. split; [reflexivity|].
  destruct (without_the_button (Example.disk Example.model) start
              Example.idle Example.model eq_refl eq_refl)
    as (H1 & _ & _ & H2 & _).
  split; [exact H1 | exact H2].
Defined.

(** X4.  If a run calls the model at all, then the button was pressed, the
    age is between 18 and 60 and the experience is between 0 and the age
    minus 16, hence at most 44: the ages 61 to 100 and the experiences 45
    to 50 that the widgets offer never reach the model. *)
Theorem model_is_called_within_bounds (w : world) (s : state) (f : form) :
  predict_calls (shown w s f) <> [] ->
  predict_button f = true
  /\ 18 <= age f <= 60
  /\ 0 <= experience f <= age f - 16
  /\ experience f <= 44.
Proof.
  intros Hcalls. destruct (available w s) as [m|] eqn:Hm.
  - pose proof (main_run w s f m Hm) as Hr.
    destruct (predict_button f) eqn:Hb.
    + destruct ((validate_age (age f)).1) eqn:Hva;
        destruct ((validate_experience (experience f) (age f)).1) eqn:Hve;
        simpl in Hr;
        try (exfalso; apply Hcalls;
             rewrite (shown_after _ _ _ _ _ _ _ Hr); apply rejected_page).
      apply validate_age_flag in Hva.
      apply validate_experience_flag in Hve. repeat split; lia.
    + exfalso. apply Hcalls.
      rewrite (shown_after _ _ _ _ _ _ _ Hr). apply top_page.
  - exfalso. apply Hcalls. unfold shown.
    rewrite (missing_model_run w s f Hm). simpl.
    now rewrite drop_app_length.
Qed.

(** The statement at the example form. *)
Lemma model_is_called_within_bounds_witness :
  predict_calls
    (shown (Example.disk Example.model) start (Example.inputs "$ (USD)"))
  <> []
  /\ 18 <= age (Example.inputs "$ (USD)") <= 60
  /\ experience (Example.inputs "$ (USD)") <= 44.
Proof.
  assert (H : predict_calls
                (shown (Example.disk Example.model) start
                   (Example.inputs "$ (USD)")) <> [])
    by (vm_compute; discriminate).
  split; [exact H|].
  destruct (model_is_called_within_bounds (Example.disk Example.model) start
              (Example.inputs "$ (USD)") H) as (_ & Ha & _ & Hx).
  split; [exact Ha | exact Hx].
Defined.

(** ** Binary64 products with one *)

(** The number of binary digits is the only [d] with [2^(d-1) <= p < 2^d]. *)
Lemma digits2_pos_unique (p : positive) (d : Z) :
  2 ^ (d - 1) <= Zpos p < 2 ^ d -> Zpos (digits2_pos p) = d.
Proof.
  intros H. pose proof (digits2_pos_bounds p) as Hp.
  set (k := Zpos (digits2_pos p)) in *.
  assert (Hk : 0 < k) by (unfold k; lia).
  assert (Hd : 0 < d).
  { destruct (Z_lt_le_dec 0 d) as [Hd|Hd]; [exact Hd|]. exfalso.
    destruct (Z.eq_dec d 0) as [->|Hn].
    - cbn in H. lia.
    - rewrite (Z.pow_neg_r 2 d) in H by lia. lia. }
  destruct (Z_lt_le_dec k d) as [Hlt|Hge].
  - exfalso. assert (2 ^ k <= 2 ^ (d - 1)) by (apply Z.pow_le_mono_r; lia). lia.
  - destruct (Z_lt_le_dec d k) as [Hlt|Hle]; [|lia].
    exfalso. assert (2 ^ d <= 2 ^ (k - 1)) by (apply Z.pow_le_mono_r; lia). lia.
Qed.

Lemma pow2_double (n x : positive) :
  (2 ^ n~0 * x = 2 ^ n * (2 ^ n * x))%positive.
Proof.
  apply Pos2Z.inj. rewrite !Pos2Z.inj_mul, !Pos2Z.inj_pow.
  change (Zpos n~0) with (2 * Zpos n).
  replace (2 * Zpos n) with (Zpos n + Zpos n) by lia.
  rewrite Z.pow_add_r by lia. ring.
Qed.

Lemma pow2_double_succ (n x : positive) :
  (2 ^ n~1 * x = (2 ^ n * (2 ^ n * x))~0)%positive.
Proof.
  apply Pos2Z.inj. change (Zpos (2 ^ n * (2 ^ n * x))~0)
    with (2 * Zpos (2 ^ n * (2 ^ n * x))).
  rewrite !Pos2Z.inj_mul, !Pos2Z.inj_pow.
  change (Zpos n~1) with (2 * Zpos n + 1).
  replace (2 * Zpos n + 1) with (Zpos n + Zpos n + 1) by lia.
  rewrite !Z.pow_add_r by lia. change (2 ^ 1) with 2. ring.
Qed.

(** Shifting [n] zero bits out of a mantissa loses nothing. *)
Lemma iter_shr_1_exact (n x : positive) :
  SpecFloat.iter_pos shr_1 n
    {| shr_m := Zpos (2 ^ n * x); shr_r := false; shr_s := false |}
  = {| shr_m := Zpos x; shr_r := false; shr_s := false |}.
Proof.
  revert x. induction n as [n IH | n IH |]; intros x; cbn [SpecFloat.iter_pos].
  - rewrite pow2_double_succ. cbn [shr_1 orb]. now rewrite !IH.
  - rewrite pow2_double. now rewrite !IH.
  - reflexivity.
Qed.

(** The product of a float with 1 in the specification. *)
Lemma product_with_one (s : bool) (m : positive) (e : Z) :
  bounded prec emax m e = true ->
  binary_round_aux prec emax s (Zpos (m * 4503599627370496)) (e + -52)
                   loc_Exact
  = S754_finite s m e.
Proof.
  intros Hb. unfold bounded, canonical_mantissa, fexp, emin in Hb.
  change (3 - emax - prec) with (-1074) in Hb. change prec with 53 in Hb.
  change (emax - 53) with 971 in Hb.
  apply andb_true_iff in Hb as [Hc He]. apply Z.eqb_eq in Hc.
  apply Z.leb_le in He.
  pose proof (digits2_pos_bounds m) as Hdm.
  set (dm := Zpos (digits2_pos m)) in *.
  assert (Hdm0 : 0 < dm) by (unfold dm; lia).
  assert (HdM : Zpos (digits2_pos (m * 4503599627370496)) = dm + 52).
  { apply digits2_pos_unique. rewrite Pos2Z.inj_mul.
    change (Zpos 4503599627370496) with (2 ^ 52).
    replace (dm + 52 - 1) with (dm - 1 + 52) by lia.
    rewrite !Z.pow_add_r by lia. nia. }
  rewrite binary_round_aux_finish.
  unfold shr_fexp, shr, fexp, emin.
  change (3 - emax - prec) with (-1074). change prec with 53.
  cbn [Zdigits2 shr_record_of_loc]. rewrite HdM.
  replace (Z.max (dm + 52 + (e + -52) - 53) (-1074) - (e + -52)) with 52
    by lia.
  rewrite Pos.mul_comm.
  change 4503599627370496%positive with (2 ^ 52)%positive.
  rewrite iter_shr_1_exact. cbn [shr_m loc_of_shr_record round_nearest_even].
  replace (e + -52 + 52) with e by lia.
  unfold Py.finish, shr_fexp, shr, fexp, emin.
  change (3 - emax - prec) with (-1074). change prec with 53.
  change (emax - 53) with 971.
  cbn [Zdigits2 shr_record_of_loc]. fold dm.
  replace (Z.max (dm + e - 53) (-1074) - e) with 0 by lia.
  cbn [shr_m]. apply Z.leb_le in He. now rewrite He.
Qed.

(** Multiplying by one changes no binary64 number. *)
Lemma mul_one (p : float) : (p * 1)%float = p.
Proof.
  apply Prim2SF_inj. rewrite mul_spec.
  change (Prim2SF 1) with (S754_finite false 4503599627370496 (-52)).
  pose proof (Prim2SF_valid p) as Hv.
  destruct (Prim2SF p) as [s | s | | s m e]; cbn [SF64mul SFmul].
  - now destruct s.
  - now destruct s.
  - reflexivity.
  - unfold SF64mul, SFmul. rewrite xorb_false_r. now apply product_with_one.
Qed.

(** ** Currencies *)

(** X5.  With rupees chosen the multiplier 1 changes nothing, for every
    binary64 prediction: the card shows the prediction itself, the report
    carries the same number as predicted and as converted salary, and the
    "You" point of the chart is at the amount on the card. *)
Theorem rupees_show_the_prediction (w : world) (s : state) (f : form)
        (m : Pipeline) (p : float) (ps : list float) :
  available w s = Some m ->
  accepted f = true ->
  predict m (input_columns f) = ok (p :: ps) ->
  currency f = "₹ (INR)"%string ->
  card (shown w s f)
  = Some {| symbol := "₹"; number := p; format := Grouped2 |}
  /\ (exists date name,
        download (shown w s f)
        = Some (to_csv (float_repr w) (result_df f date p p), name))
  /\ (show_charts f = true ->
      point "You" (shown w s f) = Some (VInt (experience f), VFloat p)).
Proof.
  intros Hm Ha Hp Hc.
  assert (Hs : index (split (currency f)) 0 = ok "₹"%string)
    by now rewrite Hc.
  assert (Hx : getitem currency_multipliers (currency f) = ok 1%float)
    by now rewrite Hc.
  pose proof (accepted_run _ _ _ _ _ _ _ _ Hm Ha Hp Hs Hx) as Hr.
  rewrite (shown_after _ _ _ _ _ _ _ Hr).
  destruct (accepted_page s f w (ticks s) p ps "₹" 1 Ha)
    as (_ & _ & Hcard & _ & _ & _ & Hd & Hyou & _).
  rewrite mul_one in Hcard, Hd.
  split; [exact Hcard|]. split; [eauto | exact Hyou].
Qed.

(** The statement at the example form in rupees. *)
Lemma rupees_show_the_prediction_witness :
  available (Example.disk Example.model) start = Some Example.model
  /\ accepted (Example.inputs "₹ (INR)") = true
  /\ predict Example.model (input_columns (Example.inputs "₹ (INR)"))
     = ok [640000%float]
  /\ card (shown (Example.disk Example.model) start
             (Example.inputs "₹ (INR)"))
     = Some {| symbol := "₹"; number := 640000; format := Grouped2 |}.
Proof.
  do 3 (split; [reflexivity|]).
  exact (proj1 (rupees_show_the_prediction (Example.disk Example.model)
                  start (Example.inputs "₹ (INR)") Example.model
                  640000%float [] eq_refl eq_refl eq_refl eq_refl)).
Defined.





(** ** The clock, the wait and the chart *)

(** X7.  With the button pressed, the one-second wait and the clock are
    used only by accepted runs: such a run takes exactly two readings, the
    first for the [Prediction_Date] cell of the report and the second for
    the name of the file, so the two stamps can differ; a refused run
    neither waits nor reads the clock. *)
Theorem report_uses_two_clock_readings (w : world) (s : state) (f : form)
        (m : Pipeline) :
  available w s = Some m ->
  predict_button f = true ->
  (forall p ps,
     accepted f = true ->
     predict m (input_columns f) = ok (p :: ps) ->
     currency f ∈ currency_options ->
     ticks (main f w s).2 = (2 + ticks s)%nat
     /\ existsb is_sleep (shown w s f) = true
     /\ exists converted,
          download (shown w s f)
          = Some (to_csv (float_repr w)
                    (result_df f (strftime_report (clock w (ticks s))) p
                               converted),
                  "salary_prediction_"
                  +:+ strftime_file (clock w (S (ticks s))) +:+ ".csv"))
  /\ (accepted f = false ->
      ticks (main f w s).2 = ticks s
      /\ existsb is_sleep (shown w s f) = false).
Proof.
  intros Hm Hb. split.
  - intros p ps Ha Hp Hc.
    destruct (currency_cases _ Hc) as (sym & mult & Hs & Hx & _).
    pose proof (accepted_run _ _ _ _ _ _ _ _ Hm Ha Hp Hs Hx) as Hr.
    rewrite (shown_after _ _ _ _ _ _ _ Hr), Hr.
    split; [reflexivity|]. split.
    + rewrite (top_accepted _ _ Ha). unfold loading.
      now destruct (cached_model s).
    + exists (p * mult)%float. apply accepted_page, Ha.
  - intros Ha. unfold accepted in Ha. rewrite Hb in Ha. simpl in Ha.
    assert (Hv : (validate_age (age f)).1 = false
                 \/ (validate_experience (experience f) (age f)).1 = false)
      by (apply andb_false_iff in Ha; exact Ha).
    pose proof (rejected_run _ _ _ _ Hm Hb Hv) as Hr.
    rewrite (shown_after _ _ _ _ _ _ _ Hr), Hr. split; [reflexivity|].
    rewrite existsb_app. destruct (top_page s f) as (_ & _ & _ & _ & -> & _).
    reflexivity.
Qed.

(** The statement at the example form: the report is dated 12:00:00 and
    the file is named after 12:00:01. *)
Lemma report_uses_two_clock_readings_witness :
  available (Example.disk Example.model) start = Some Example.model
  /\ predict_button (Example.inputs "$ (USD)") = true
  /\ exists converted,
       download (shown (Example.disk Example.model) start
                   (Example.inputs "$ (USD)"))
       = Some (to_csv (float_repr (Example.disk Example.model))
                 (result_df (Example.inputs "$ (USD)") "2024-03-07 12:00:00"
                            640000 converted),
               "salary_prediction_20240307_120001.csv"%string).
Proof.
  do 2 (split; [reflexivity|]).
  assert (Hc : currency (Example.inputs "$ (USD)") ∈ currency_options)
    by (unfold currency_options; simpl; rewrite !elem_of_cons; auto).
  destruct (report_uses_two_clock_readings (Example.disk Example.model) start
              (Example.inputs "$ (USD)") Example.model eq_refl eq_refl)
    as (H & _).
  exact (proj2 (proj2 (H 640000%float [] eq_refl eq_refl Hc))).
Defined.



(** X9.  An age the number input allows and the check refuses (61 to 100)
    puts the message "Age must be between 18 and 100" on the page, with
    or without the button, and the model is not called. *)
Theorem refused_age_shows_the_100_message (w : world) (s : state) (f : form)
        (m : Pipeline) :
  available w s = Some m ->
  60 < age f <= 100 ->
  "Age must be between 18 and 100"%string ∈ errors (shown w s f)
  /\ predict_calls (shown w s f) = []
  /\ (main f w s).1 = ok tt.
Proof.
  intros Hm Hage.
  assert (Hva : (validate_age (age f)).1 = false).
  { apply not_true_is_false. rewrite validate_age_flag. lia. }
  assert (Hmsg : (validate_age (age f)).2
                 = "Age must be between 18 and 100"%string) by reflexivity.
  destruct (predict_button f) eqn:Hb.
  - pose proof (rejected_run _ _ _ _ Hm Hb (or_introl Hva)) as Hr.
    rewrite (shown_after _ _ _ _ _ _ _ Hr), Hr.
    destruct (rejected_page s f
      "❌ Please fix the validation errors above before predicting.")
      as (Hc & _ & _ & _ & He).
    rewrite Hc, He, Hva, Hmsg. repeat split. apply list_elem_of_here.
  - destruct (without_button_run w s f m Hm Hb) as (Hok & Hs).
    rewrite Hs, Hok. destruct (top_page s f) as (Hc & _ & _ & _ & _ & He).
    rewrite Hc, He, Hva, Hmsg. repeat split. apply list_elem_of_here.
Qed.

(** The statement at the example form with age 61. *)
Lemma refused_age_shows_the_100_message_witness :
  available (Example.disk Example.model) start = Some Example.model
  /\ 60 < age Example.old_inputs <= 100
  /\ "Age must be between 18 and 100"%string
     ∈ errors (shown (Example.disk Example.model) start Example.old_inputs).
Proof.
  assert (H : 60 < age Example.old_inputs <= 100) by (simpl; lia).
  split; [reflexivity|]. split; [exact H|].
  exact (proj1 (refused_age_shows_the_100_message
                  (Example.disk Example.model) start Example.old_inputs
                  Example.model eq_refl H)).
Defined.

(** ** The pipeline, continued *)




(** ** The trainer, continued *)

(** The salary expression is its noise-free part with the noise added
    last. *)
Lemma Salary_split (w : TrainModel.draws) (d : DataFrame) :
  TrainModel.Salary w d
  = rbind (TrainModel.noise_free_salary d)
          (fun t => series_add t (Float64 (TrainModel.noise_draw w))).
Proof.
  unfold TrainModel.Salary, TrainModel.noise_free_salary.
  cbv [mbind result_bind].
  repeat match goal with
         | |- context [rbind ?c _] =>
             destruct c; cbn [rbind]; try reflexivity
         end.
Qed.

Lemma job_offset_bounds (j : string) :
  j ∈ TrainModel.Job_values ->
  150000 <= TrainModel.stated_job_offset j <= 500000.
Proof.
  unfold TrainModel.Job_values. rewrite !elem_of_cons, elem_of_nil.
  intros [-> | [-> | [-> | [-> | [-> | []]]]]]; vm_compute;
    split; discriminate.
Qed.

(** The noise-free column of a possible run, row by row. *)
Lemma noise_free_run (w : TrainModel.draws) (d : DataFrame) :
  TrainModel.run_facts w ->
  TrainModel.data w = ok d ->
  exists base : list Z,
    TrainModel.noise_free_salary d = ok (Int64 base)
    /\ length base = 300%nat
    /\ forall i age experience education job,
         TrainModel.Age_draw w !! i = Some age ->
         TrainModel.Experience_draw w !! i = Some experience ->
         TrainModel.Education_draw w !! i = Some education ->
         TrainModel.Job_draw w !! i = Some job ->
         base !! i
         = Some (TrainModel.stated_salary age experience education job).
Proof.
  intros Hw Hd. rewrite (data_ok w Hw) in Hd. injection Hd as <-.
  destruct Hw as [La Lg Le Lj Lx Ln Fa Fg Fe Fj Fx].
  unfold TrainModel.noise_free_salary.
  cbn [column assoc String.eqb Ascii.eqb Bool.eqb mbind result_bind rbind
       series_mul_int int_add_series ok].
  rewrite (series_map_known TrainModel.education_offsets
             TrainModel.stated_education_offset (TrainModel.Education_draw w))
    by (eapply Forall_impl; [exact Fe|]; intros e He;
        now apply education_offsets_lookup).
  rewrite (series_map_known TrainModel.job_offsets
             TrainModel.stated_job_offset (TrainModel.Job_draw w))
    by (eapply Forall_impl; [exact Fj|]; intros j Hj;
        now apply job_offsets_lookup).
  eexists. split; [|split].
  - rewrite series_add_int by now rewrite !length_fmap, La, Lx.
    cbn [mbind result_bind rbind ok].
    rewrite series_add_int
      by now rewrite length_zip_with, !length_fmap, La, Lx, Le.
    cbn [mbind result_bind rbind ok].
    rewrite series_add_int
      by now rewrite !length_zip_with, !length_fmap, La, Lx, Le, Lj.
    reflexivity.
  - rewrite !length_zip_with, !length_fmap, La, Lx, Le, Lj. reflexivity.
  - intros i age experience education job Ha Hx He Hj.
    rewrite !lookup_zip_with, !list_lookup_fmap, Ha, Hx, He, Hj. cbn.
    f_equal.
    pose proof (proj1 (Forall_lookup _ _) Fa i age Ha) as Ba.
    pose proof (proj1 (Forall_lookup _ _) Fx i experience Hx) as Bx.
    pose proof (proj1 (Forall_lookup _ _) Fe i education He) as Be.
    pose proof (proj1 (Forall_lookup _ _) Fj i job Hj) as Bj.
    apply education_offsets_lookup in Be as [_ Be].
    apply job_offsets_lookup in Bj as [_ Bj]. simpl in Ba, Bx.
    unfold TrainModel.stated_salary, TrainModel.base_salary.
    rewrite (wrap64_small (age * 3000)) by lia.
    rewrite (wrap64_small (experience * 15000)) by lia.
    rewrite (wrap64_small (250000 + _)) by lia.
    rewrite (wrap64_small (250000 + _ + _)) by lia.
    rewrite (wrap64_small (250000 + _ + _ + _)) by lia.
    rewrite (wrap64_small (250000 + _ + _ + _ + _)) by lia.
    reflexivity.
Qed.

(** X11.  In every possible run the noise-free part of the salary column
    is an [int64] column of 300 cells, each between 466000 and 1637000:
    the integer arithmetic of lines 20-35 never wraps around and no lookup
    in the two offset tables misses (which would turn the column into
    floats with NaN).  The salary column is that column plus the noise. *)
Theorem noise_free_salary_is_bounded (w : TrainModel.draws) :
  TrainModel.possible_run w = true ->
  exists d base,
    TrainModel.data w = ok d
    /\ TrainModel.noise_free_salary d = ok (Int64 base)
    /\ TrainModel.Salary w d
       = series_add (Int64 base) (Float64 (TrainModel.noise_draw w))
    /\ length base = 300%nat
    /\ Forall (fun b => 466000 <= b <= 1637000) base.
Proof.
  intros Hw%possible_run_facts.
  pose proof (data_ok w Hw) as Hd.
  destruct (noise_free_run w _ Hw Hd) as (base & Hn & Lb & Hb).
  eexists _, base. split; [exact Hd|]. split; [exact Hn|].
  split; [now rewrite Salary_split, Hn|]. split; [exact Lb|].
  apply Forall_lookup. intros i b Hi.
  assert (Hlt : (i < 300)%nat) by (rewrite <- Lb; eapply lookup_lt_Some, Hi).
  destruct Hw as [La Lg Le Lj Lx Ln Fa Fg Fe Fj Fx].
  destruct (lookup_lt_is_Some_2 (TrainModel.Age_draw w) i) as [age Ha];
    [lia|].
  destruct (lookup_lt_is_Some_2 (TrainModel.Experience_draw w) i)
    as [experience Hx]; [lia|].
  destruct (lookup_lt_is_Some_2 (TrainModel.Education_draw w) i)
    as [education He]; [lia|].
  destruct (lookup_lt_is_Some_2 (TrainModel.Job_draw w) i) as [job Hj];
    [lia|].
  rewrite (Hb i age experience education job Ha Hx He Hj) in Hi.
  injection Hi as <-.
  pose proof (proj1 (Forall_lookup _ _) Fa i age Ha) as Ba.
  pose proof (proj1 (Forall_lookup _ _) Fx i experience Hx) as Bx.
  pose proof (proj1 (Forall_lookup _ _) Fe i education He) as Be.
  pose proof (proj1 (Forall_lookup _ _) Fj i job Hj) as Bj.
  apply education_offsets_lookup in Be as [_ Be].
  apply job_offset_bounds in Bj. simpl in Ba, Bx.
  unfold TrainModel.stated_salary. lia.
Qed.

(** The statement at the run whose draws are all the same. *)
Lemma noise_free_salary_is_bounded_witness :
  TrainModel.possible_run Example.constant_run = true
  /\ exists d base,
       TrainModel.data Example.constant_run = ok d
       /\ TrainModel.noise_free_salary d = ok (Int64 base)
       /\ Forall (fun b => 466000 <= b <= 1637000) base.
Proof.
  split; [vm_compute; reflexivity|].
  destruct (noise_free_salary_is_bounded Example.constant_run)
    as (d & base & Hd & Hn & _ & _ & Hb); [vm_compute; reflexivity|].
  exists d, base. repeat split; assumption.
Defined.

(** The labelled table of a possible run, spelled out. *)
Lemma labelled_data_run (w : TrainModel.draws) :
  TrainModel.run_facts w ->
  exists salaries,
    length salaries = 300%nat
    /\ TrainModel.labelled_data w
       = ok [ ("Age"%string, Int64 (TrainModel.Age_draw w));
              ("Gender"%string, Object (VStr <$> TrainModel.Gender_draw w));
              ("Education Level"%string,
               Object (VStr <$> TrainModel.Education_draw w));
              ("Job Title"%string,
               Object (VStr <$> TrainModel.Job_draw w));
              ("Years of Experience"%string,
               Int64 (TrainModel.Experience_draw w));
              ("Salary"%string, Float64 salaries) ].
Proof.
  intros Hw. pose proof (data_ok w Hw) as Hd.
  destruct (Salary_run w _ Hw Hd) as (base & Hs & Lb & _).
  eexists. split; [|unfold TrainModel.labelled_data; rewrite Hd;
                    cbn [mbind result_bind rbind ok]; rewrite Hs;
                    reflexivity].
  now rewrite length_zip_with, length_fmap, Lb, (TrainModel.noises_len w Hw).
Qed.

(** X12.  The table the app hands to the model has the schema the trainer
    fits on: for every form and every possible run, [X] holds the same
    column labels, in the same order and of the same types, as the app's
    one-row table.  [X] has 300 rows and does not contain the salary, [y]
    is the salary column, and the columns of [X] are exactly the features
    the estimator names, so the column transformer drops none. *)
Theorem inference_schema_matches_training (w : TrainModel.draws) (f : form) :
  TrainModel.possible_run w = true ->
  exists d x t,
    TrainModel.labelled_data w = ok d
    /\ TrainModel.X d = ok x
    /\ TrainModel.y d = ok t
    /\ dtypes x = dtypes (input_columns f)
    /\ nrows x = 300%nat
    /\ dtype_of t = float64
    /\ series_length t = 300%nat
    /\ ("Salary"%string ∉ x.*1)
    /\ (forall c,
          c ∈ x.*1
          <-> c ∈ TrainModel.numeric_features
                  ++ TrainModel.categorical_features).
Proof.
  intros Hw%possible_run_facts.
  destruct (labelled_data_run w Hw) as (salaries & Ls & Hl).
  eexists _, _, _. split; [exact Hl|].
  split; [reflexivity|]. split; [reflexivity|].
  split; [reflexivity|]. split.
  { unfold nrows, series_length; cbn [snd cells].
    now rewrite length_fmap, (TrainModel.ages_len w Hw). }
  split; [reflexivity|]. split.
  { unfold series_length; cbn [cells]. now rewrite length_fmap. }
  cbn [fmap list_fmap fst].
  unfold TrainModel.numeric_features, TrainModel.categorical_features.
  cbn [app]. split.
  - rewrite !not_elem_of_cons. repeat split; try discriminate.
    apply not_elem_of_nil.
  - intros c. rewrite !elem_of_cons, !elem_of_nil. tauto.
Qed.

(** The statement at the run whose draws are all the same and the
    example form. *)
Lemma inference_schema_matches_training_witness :
  TrainModel.possible_run Example.constant_run = true
  /\ exists d x,
       TrainModel.labelled_data Example.constant_run = ok d
       /\ TrainModel.X d = ok x
       /\ dtypes x
          = [ ("Age"%string, int64); ("Gender"%string, object);
              ("Education Level"%string, object);
              ("Job Title"%string, object);
              ("Years of Experience"%string, int64) ].
Proof.
  split; [vm_compute; reflexivity|].
  destruct (inference_schema_matches_training Example.constant_run
              (Example.inputs "$ (USD)"))
    as (d & x & t & Hl & Hx & _ & Hd & _); [vm_compute; reflexivity|].
  exists d, x. split; [exact Hl|]. split; [exact Hx | exact Hd].
Defined.

(** ** From the trainer to the app *)

Lemma from_widgets_currency (f : form) :
  from_widgets f = true -> currency f ∈ currency_options.
Proof.
  unfold from_widgets. rewrite !andb_true_iff.
  intros (((((((Hc & _) & _) & _) & _) & _) & _) & _).
  exact (bool_decide_eq_true_1 _ Hc).
Qed.

Section Trained.
Variable fit : Estimator -> DataFrame -> Series -> Pipeline.
Hypothesis fit_fits :
  forall x t, fitted TrainModel.pipeline (fit TrainModel.pipeline x t) = true.

(** X13.  The file the trainer writes is the file the app reads.  After
    the script has run, on whatever disk, a fresh app process given any
    form of the widgets that passes both checks reads that file, calls the
    fitted pipeline once on the row of the form and ends normally with the
    card and the report and without an error box; the script touches no
    other file. *)
Theorem trained_model_serves_every_valid_form (w : TrainModel.draws)
        (fs : gmap string Pipeline) :
  TrainModel.possible_run w = true ->
  exists fs' m,
    TrainModel.script fit w fs = ok fs'
    /\ fs' !! "salary_prediction_pipeline.pkl"%string = Some m
    /\ fitted TrainModel.pipeline m = true
    /\ (forall path,
          path <> "salary_prediction_pipeline.pkl"%string ->
          fs' !! path = fs !! path)
    /\ forall W f,
         files W = fs' ->
         from_widgets f = true ->
         accepted f = true ->
         (main f W start).1 = ok tt
         /\ cached_model (main f W start).2 = Some m
         /\ (exists out,
               predict_calls (shown W start f)
               = [(input_columns f, ok [out])])
         /\ errors (shown W start f) = []
         /\ card (shown W start f) <> None
         /\ download (shown W start f) <> None.
Proof.
  intros Hw%possible_run_facts.
  destruct (labelled_data_run w Hw) as (salaries & _ & Hl).
  eexists _, _. split.
  { unfold TrainModel.script. rewrite Hl. reflexivity. }
  split; [apply lookup_insert_eq|].
  split; [apply fit_fits|]. split.
  { intros path Hp. unfold TrainModel.joblib_dump.
    now rewrite lookup_insert_ne. }
  intros W f HW Hf Ha.
  set (m := fit TrainModel.pipeline _ _) in *.
  assert (Hm : available W start = Some m).
  { unfold available; simpl. rewrite HW. unfold TrainModel.joblib_dump.
    apply lookup_insert_eq. }
  destruct (predict_fitted m f (fit_fits _ _)) as (out & Hp).
  destruct (currency_cases _ (from_widgets_currency f Hf))
    as (sym & mult & Hs & Hx & _).
  pose proof (accepted_run _ _ _ _ _ _ _ _ Hm Ha Hp Hs Hx) as Hr.
  rewrite (shown_after _ _ _ _ _ _ _ Hr), Hr.
  destruct (accepted_page start f W (ticks start) out [] sym mult Ha)
    as (Hcalls & Herr & Hcard & _ & _ & _ & Hd & _).
  rewrite Hcalls, Herr, Hcard, Hd.
  repeat split; try discriminate. now exists out.
Qed.
End Trained.

(** The statement at a fit that answers with the example pipeline and the
    run whose draws are all the same. *)
Lemma trained_model_serves_every_valid_form_witness :
  (forall x t,
     fitted TrainModel.pipeline (Example.fit TrainModel.pipeline x t) = true)
  /\ TrainModel.possible_run Example.constant_run = true
  /\ from_widgets (Example.inputs "€ (EUR)") = true
  /\ accepted (Example.inputs "€ (EUR)") = true
  /\ exists fs',
       TrainModel.script Example.fit Example.constant_run ∅ = ok fs'
       /\ (main (Example.inputs "€ (EUR)")
               {| files := fs'; clock := clock Example.empty_disk;
                  float_repr := float_repr Example.empty_disk |} start).1
          = ok tt.
Proof.
  split; [intros; reflexivity|]. split; [vm_compute; reflexivity|].
  split; [vm_compute; reflexivity|]. split; [reflexivity|].
  destruct (trained_model_serves_every_valid_form Example.fit)
    with (w := Example.constant_run) (fs := (∅ : gmap string Pipeline))
    as (fs' & m & Hs & _ & _ & _ & Hrun).
  - intros x t. reflexivity.
  - vm_compute; reflexivity.
  - exists fs'. split; [exact Hs|].
    apply (Hrun {| files := fs'; clock := clock Example.empty_disk;
                   float_repr := float_repr Example.empty_disk |}
                (Example.inputs "€ (EUR)"));
      [reflexivity | vm_compute; reflexivity | reflexivity].
Defined.

(** X14.  A first run that finds the file reads it once, before anything
    else, and leaves its pipeline in the cache whatever the form and
    however the run ends. *)
Theorem first_run_caches_the_model (w : world) (s : state) (f : form)
        (m : Pipeline) :
  cached_model s = None ->
  files w !! "salary_prediction_pipeline.pkl"%string = Some m ->
  cached_model (main f w s).2 = Some m
  /\ exists es,
       shown w s f = ReadFile "salary_prediction_pipeline.pkl" :: es
       /\ existsb is_read es = false.
Proof.
  intros Hc Hf.
  assert (Hm : available w s = Some m) by (unfold available; now rewrite Hc).
  pose proof (load_model_run w s m Hm) as Hl.
  unfold loading in Hl. rewrite Hc in Hl.
  set (s1 := after s m 0 [ReadFile "salary_prediction_pipeline.pkl"]) in *.
  assert (Hc1 : cached_model s1 = Some m) by reflexivity.
  destruct (quiet_after_load m f w s1 Hc1) as (c & Hq & Hmain).
  assert (Hl1 : load_model w s1 = (ok m, s1))
    by (unfold load_model, cache_resource; now rewrite Hc1).
  assert (Heq : main f w s = main f w s1).
  { unfold main. erewrite bind_run by exact Hl.
    erewrite (bind_run load_model) by exact Hl1. reflexivity. }
  destruct (Hq w s1) as (Hcache & es & Hlog & Hes).
  unfold shown. rewrite Heq, Hmain. split; [congruence|].
  exists es. rewrite Hlog. unfold s1, after; simpl.
  rewrite <- app_assoc, drop_app_length. now split.
Qed.

(** The statement at a fresh process and a form with an unknown currency. *)
Lemma first_run_caches_the_model_witness :
  cached_model start = None
  /\ files (Example.disk Example.model)
       !! "salary_prediction_pipeline.pkl"%string = Some Example.model
  /\ (main (Example.inputs "£ (GBP)") (Example.disk Example.model) start).1
     = raise (KeyError "£ (GBP)")
  /\ cached_model
       (main (Example.inputs "£ (GBP)") (Example.disk Example.model) start).2
     = Some Example.model.
Proof.
  do 3 (split; [reflexivity|]).
  exact (proj1 (first_run_caches_the_model (Example.disk Example.model)
                  start (Example.inputs "£ (GBP)") Example.model
                  eq_refl eq_refl)).
Defined.

(** ** The two checks *)

(** X15.  [validate_experience] tests the sign first: a negative
    experience gets the "negative" message even when it also exceeds
    [age - 16]; the "exceed" message is for a non-negative experience above
    [age - 16]; the message is empty exactly when the flag is true.  An
    experience that passes still passes for any smaller non-negative
    experience and any greater age, and then the age exceeds it by at
    least 16. *)
Theorem validate_experience_cases (experience age : Z) :
  (experience < 0 <->
   validate_experience experience age
   = (false, "Experience cannot be negative"%string))
  /\ (0 <= experience /\ experience > age - 16 <->
      validate_experience experience age
      = (false, "Experience cannot exceed (Age - 16) years"%string))
  /\ ((validate_experience experience age).1 = true <->
      (validate_experience experience age).2 = ""%string)
  /\ ((validate_experience experience age).1 = true ->
      16 <= age - experience
      /\ forall experience' age',
           0 <= experience' <= experience -> age <= age' ->
           (validate_experience experience' age').1 = true).
Proof.
  unfold validate_experience.
  destruct (Z.ltb_spec experience 0) as [Hneg|Hpos];
    [|destruct (Z.gtb_spec experience (age - 16)) as [Hgt|Hle]]; simpl;
    (split; [split; intros; first [reflexivity | discriminate | lia]|]);
    (split; [split; intros; first [reflexivity | discriminate | lia]|]);
    (split; [split; intros; first [reflexivity | discriminate]|]);
    try discriminate.
  intros _. split; [lia|]. intros e' a' He Ha.
  destruct (Z.ltb_spec e' 0); [lia|].
  destruct (Z.gtb_spec e' (a' - 16)); [lia | reflexivity].
Qed.

(** ** What the salary depends on, and the ranges of the two scripts *)

Lemma DataFrame_of_columns_ok (cols : list (string * Series)) (d : DataFrame) :
  DataFrame_of_columns cols = ok d -> d = cols.
Proof.
  unfold DataFrame_of_columns.
  destruct (forallb _ cols); [|discriminate]. intros H. now injection H.
Qed.

(** X16.  The salary column does not depend on the gender column: two
    runs that differ only in the genders drawn get the same salaries. *)
Theorem salary_ignores_gender (w : TrainModel.draws) (genders : list string)
        (d d' : DataFrame) :
  TrainModel.data w = ok d ->
  TrainModel.data (TrainModel.with_gender w genders) = ok d' ->
  TrainModel.Salary w d
  = TrainModel.Salary (TrainModel.with_gender w genders) d'.
Proof.
  intros Hd%DataFrame_of_columns_ok Hd'%DataFrame_of_columns_ok.
  subst d d'. reflexivity.
Qed.

(** The statement at the run whose draws are all the same, with all
    genders changed. *)
Lemma salary_ignores_gender_witness :
  exists d d',
    TrainModel.data Example.constant_run = ok d
    /\ TrainModel.data
         (TrainModel.with_gender Example.constant_run
            (replicate 300 "Female"%string)) = ok d'
    /\ TrainModel.Salary Example.constant_run d
       = TrainModel.Salary
           (TrainModel.with_gender Example.constant_run
              (replicate 300 "Female"%string)) d'.
Proof.
  eexists _, _. split; [reflexivity|]. split; [reflexivity|].
  exact (salary_ignores_gender Example.constant_run
           (replicate 300 "Female"%string) _ _ eq_refl eq_refl).
Defined.

(** X17.  The app accepts more than the trainer ever draws.  In every
    possible run all drawn ages pass the age check; but the ages 18 to 21
    and 60, which pass it, and the experiences 35 to 44, which pass the
    experience check at age 60, occur in no training row. *)
Theorem accepted_values_outside_training (w : TrainModel.draws) :
  TrainModel.possible_run w = true ->
  Forall (fun a => (validate_age a).1 = true) (TrainModel.Age_draw w)
  /\ (forall a, 18 <= a < 22 \/ a = 60 ->
        (validate_age a).1 = true /\ a ∉ TrainModel.Age_draw w)
  /\ (forall x, 35 <= x <= 44 ->
        (validate_experience x 60).1 = true
        /\ x ∉ TrainModel.Experience_draw w).
Proof.
  intros [_ _ _ _ _ _ Fa _ _ _ Fx]%possible_run_facts.
  split; [|split].
  - eapply Forall_impl; [exact Fa|]. intros a Ha. simpl in Ha.
    apply validate_age_flag. lia.
  - intros a Ha. split; [apply validate_age_flag; lia|].
    intros Hin. rewrite Forall_forall in Fa. specialize (Fa a Hin).
    simpl in Fa. lia.
  - intros x Hx. split; [apply validate_experience_flag; lia|].
    intros Hin. rewrite Forall_forall in Fx. specialize (Fx x Hin).
    simpl in Fx. lia.
Qed.

(** The statement at the run whose draws are all the same. *)
Lemma accepted_values_outside_training_witness :
  TrainModel.possible_run Example.constant_run = true
  /\ (validate_age 60).1 = true
  /\ 60 ∉ TrainModel.Age_draw Example.constant_run.
Proof.
  split; [vm_compute; reflexivity|].
  destruct (accepted_values_outside_training Example.constant_run)
    as (_ & H & _); [vm_compute; reflexivity|].
  exact (H 60 (or_intror eq_refl)).
Defined.
